(** * Demand-driven departure timetables (modulo4_horarios.py)

    A shallow embedding of the schedule generator: the time-of-day demand
    table, the threshold headway policy, the rounding of timestamps and the
    time-stepping loop of [generate_daily_schedule], followed by the
    properties the specification states about them.

    Conventions of the embedding.
    - Python [int] is [Z]; Python [float] is an IEEE-754 binary64 value,
      represented by the Standard Library's [spec_float]; a decimal literal
      denotes the binary64 value nearest to it, as in Python.
    - [date] is the proleptic Gregorian ordinal of the day
      ([date.toordinal()]): 1 is 0001-01-01 and 3652059 is 9999-12-31.
    - [time] and [datetime] are naive (no tzinfo), as they are everywhere in
      the source.
    - [timedelta] is its total number of microseconds.
    - An exception is a value of [exn]; code that may raise returns a
      [result].  The [while] loop takes a fuel argument and answers [None]
      when the fuel runs out before the loop condition fails. *)

From Stdlib Require Import ZArith Lia Bool List.
From Stdlib Require Import Floats.SpecFloat Floats.PrimFloat Floats.FloatOps.
From stdpp Require Import gmap strings list sorting.

Set Warnings "-inexact-float".
Open Scope Z_scope.

(** ** Exceptions and results *)

Inductive exn : Type :=
| ValueError      (* raised by the service-window check *)
| OverflowError   (* date or timedelta out of range *)
| IndexError      (* [thresholds[-1]] on an empty table *)
| KeyError.       (* [schedules[route]] on a missing key *)

Inductive result (A : Type) : Type :=
| Ok (a : A)
| Raise (e : exn).
Arguments Ok {A} a.
Arguments Raise {A} e.

#[global] Instance result_ret : MRet result := λ A a, Ok a.
#[global] Instance result_bind : MBind result :=
  λ A B f r, match r with Ok a => f a | Raise e => Raise e end.

(** ** Python floats *)

Module pyfloat.

Abbreviation t := spec_float.

(** [a < b], [a <= b], [a > b], [a >= b] on floats. *)
Definition lt (a b : t) : bool := SFltb a b.
Definition le (a b : t) : bool := SFleb a b.
Definition gt (a b : t) : bool := SFltb b a.
Definition ge (a b : t) : bool := SFleb b a.

(** The builtins [min(a, b)] and [max(a, b)]: the first argument is kept
    unless the second is strictly smaller (resp. larger). *)
Definition min (a b : t) : t := if lt b a then b else a.
Definition max (a b : t) : t := if gt b a then b else a.

(** The literals of the source. *)
Definition f0_0  : t := Eval vm_compute in Prim2SF 0.0%float.
Definition f1_0  : t := Eval vm_compute in Prim2SF 1.0%float.
Definition f0_25 : t := Eval vm_compute in Prim2SF 0.25%float.
Definition f0_3  : t := Eval vm_compute in Prim2SF 0.30%float.
Definition f0_4  : t := Eval vm_compute in Prim2SF 0.4%float.
Definition f0_5  : t := Eval vm_compute in Prim2SF 0.5%float.
Definition f0_55 : t := Eval vm_compute in Prim2SF 0.55%float.
Definition f0_6  : t := Eval vm_compute in Prim2SF 0.6%float.
Definition f0_7  : t := Eval vm_compute in Prim2SF 0.7%float.
Definition f0_85 : t := Eval vm_compute in Prim2SF 0.85%float.
Definition f0_9  : t := Eval vm_compute in Prim2SF 0.9%float.
Definition f0_95 : t := Eval vm_compute in Prim2SF 0.95%float.

(** A float lies in the closed interval [[0, 1]]. *)
Definition in_unit (x : t) : bool := le f0_0 x && le x f1_0.

End pyfloat.

(** The builtins [min] and [max] on ints. *)
Definition int_min (a b : Z) : Z := if b <? a then b else a.
Definition int_max (a b : Z) : Z := if a <? b then b else a.

(** ** datetime.time *)

Module time.

Record t : Type := mk { hour : Z; minute : Z; second : Z; microsecond : Z }.

(** The ranges the constructor [time(h, m, s, us)] enforces. *)
Definition valid (x : t) : Prop :=
  0 <= hour x < 24 /\ 0 <= minute x < 60 /\ 0 <= second x < 60 /\
  0 <= microsecond x < 1000000.

(** Comparison of naive times is the comparison of the tuples
    [(hour, minute, second, microsecond)]. *)
Definition cmp (a b : t) : comparison :=
  match hour a ?= hour b with
  | Eq =>
    match minute a ?= minute b with
    | Eq =>
      match second a ?= second b with
      | Eq => microsecond a ?= microsecond b
      | c => c
      end
    | c => c
    end
  | c => c
  end.

Definition le (a b : t) : bool :=
  match cmp a b with Gt => false | _ => true end.
Definition ge (a b : t) : bool :=
  match cmp a b with Lt => false | _ => true end.

(** Microseconds since midnight. *)
Definition to_us (x : t) : Z :=
  ((hour x * 60 + minute x) * 60 + second x) * 1000000 + microsecond x.

End time.

(** ** datetime.date, datetime.timedelta, datetime.datetime *)

Module date.

Abbreviation t := Z.
Definition min_ordinal : Z := 1.
Definition max_ordinal : Z := 3652059.
Definition valid (d : t) : Prop := min_ordinal <= d <= max_ordinal.

End date.

Module timedelta.

Abbreviation t := Z.
Definition us_per_day : Z := 86400000000.
Definition max_days : Z := 999999999.

(** [timedelta(minutes=.., seconds=.., microseconds=..)]; the number of
    days of the normalised value must have magnitude at most
    999999999. *)
Definition make (minutes seconds microseconds : Z) : result t :=
  let us := minutes * 60000000 + seconds * 1000000 + microseconds in
  let days := us / us_per_day in
  if (- max_days <=? days) && (days <=? max_days) then Ok us
  else Raise OverflowError.

End timedelta.

Module datetime.

Record t : Type :=
  mk { ordinal : Z; hour : Z; minute : Z; second : Z; microsecond : Z }.

Definition valid (x : t) : Prop :=
  date.valid (ordinal x) /\
  0 <= hour x < 24 /\ 0 <= minute x < 60 /\ 0 <= second x < 60 /\
  0 <= microsecond x < 1000000.

(** [datetime.combine(d, t)] and [dt.time()]. *)
Definition combine (d : date.t) (x : time.t) : t :=
  mk d (time.hour x) (time.minute x) (time.second x) (time.microsecond x).
Definition time (x : t) : time.t :=
  time.mk (hour x) (minute x) (second x) (microsecond x).

(** Microseconds since the midnight that starts ordinal 0, and back. *)
Definition to_us (x : t) : Z :=
  ordinal x * timedelta.us_per_day +
  ((hour x * 60 + minute x) * 60 + second x) * 1000000 + microsecond x.
Definition of_us (z : Z) : t :=
  mk (z / timedelta.us_per_day)
     ((z / 3600000000) mod 24)
     ((z / 60000000) mod 60)
     ((z / 1000000) mod 60)
     (z mod 1000000).

(** [dt + td] and [dt - td]: the fields are renormalised, and a result
    whose day is outside 0001-01-01 .. 9999-12-31 raises. *)
Definition add (x : t) (td : timedelta.t) : result t :=
  let r := of_us (to_us x + td) in
  if (date.min_ordinal <=? ordinal r) && (ordinal r <=? date.max_ordinal)
  then Ok r else Raise OverflowError.
Definition sub (x : t) (td : timedelta.t) : result t := add x (- td).

End datetime.

(** ** The two provider interfaces *)

Record DemandProvider : Type :=
  { get_demand_score : string → datetime.t → result pyfloat.t }.

Record HeadwayPolicy : Type :=
  { get_headway_minutes : string → datetime.t → pyfloat.t → result Z }.

(** ** SimpleDemandByHour *)

Module SimpleDemandByHour.

Record t : Type := mk { by_hour : gmap Z pyfloat.t; base : pyfloat.t }.

(** A dict display or comprehension: later pairs replace earlier ones. *)
Definition dict_of (kvs : list (Z * pyfloat.t)) : gmap Z pyfloat.t :=
  foldl (λ m kv, <[kv.1 := kv.2]> m) ∅ kvs.

(** [{h: v for h in range(lo, hi)}] as a list of pairs. *)
Definition for_range (lo hi : Z) (v : pyfloat.t) : list (Z * pyfloat.t) :=
  (λ h, (h, v)) <$> seqZ lo (hi - lo).

Definition default_by_hour : gmap Z pyfloat.t :=
  dict_of (for_range 0 5 pyfloat.f0_25 ++
           for_range 5 7 pyfloat.f0_6 ++
           for_range 7 9 pyfloat.f0_9 ++
           for_range 9 12 pyfloat.f0_5 ++
           [(12, pyfloat.f0_7); (13, pyfloat.f0_7)] ++
           for_range 14 17 pyfloat.f0_55 ++
           for_range 17 20 pyfloat.f0_95 ++
           for_range 20 24 pyfloat.f0_4).

Definition default_base : pyfloat.t := pyfloat.f0_4.

(** The dataclass constructor followed by [__post_init__]: an omitted
    argument is [None]. *)
Definition new (by_hour : option (gmap Z pyfloat.t))
    (base : option pyfloat.t) : t :=
  mk (default default_by_hour by_hour) (default default_base base).

Definition get_demand_score (self : t) (route_name : string)
    (at_ : datetime.t) : pyfloat.t :=
  pyfloat.max pyfloat.f0_0
    (pyfloat.min pyfloat.f1_0
       (default (base self) (by_hour self !! datetime.hour at_))).

Definition provider (self : t) : DemandProvider :=
  Build_DemandProvider (λ r a, Ok (get_demand_score self r a)).

End SimpleDemandByHour.

(** ** ThresholdHeadwayPolicy *)

Module ThresholdHeadwayPolicy.

Record t : Type :=
  mk { thresholds : list (pyfloat.t * Z); min_headway : Z; max_headway : Z }.

Definition default_thresholds : list (pyfloat.t * Z) :=
  [ (pyfloat.f0_85, 8); (pyfloat.f0_7, 10); (pyfloat.f0_5, 15);
    (pyfloat.f0_3, 20); (pyfloat.f0_0, 30) ].

(** [list.sort(key=lambda x: x[0], reverse=True)]: a stable sort by
    descending key.  An entry is placed before the first entry whose key
    is strictly smaller, so entries with equal keys keep their order.
    This is what Python's sort gives for a table without a NaN key,
    and for a table in which no key is above an earlier one, which the
    sort leaves as it is.  With a NaN key elsewhere the order Python
    produces depends on the comparisons its algorithm happens to make;
    such tables are outside the model, and no statement below is about
    them. *)
Fixpoint insert_desc (x : pyfloat.t * Z) (l : list (pyfloat.t * Z))
    : list (pyfloat.t * Z) :=
  match l with
  | [] => [x]
  | y :: l' =>
    if pyfloat.lt y.1 x.1 then x :: y :: l' else y :: insert_desc x l'
  end.
Definition sort_desc (l : list (pyfloat.t * Z)) : list (pyfloat.t * Z) :=
  foldl (λ acc x, insert_desc x acc) [] l.

(** The dataclass constructor followed by [__post_init__]. *)
Definition new (thresholds : option (list (pyfloat.t * Z)))
    (min_headway max_headway : option Z) : t :=
  mk (sort_desc (default default_thresholds thresholds))
     (default 6 min_headway) (default 60 max_headway).

Definition clamp (self : t) (hw : Z) : Z :=
  int_max (min_headway self) (int_min (max_headway self) hw).

(** The [for] loop of [get_headway_minutes] over the remaining entries;
    [None] when no entry returned. *)
Fixpoint scan (self : t) (demand_score : pyfloat.t)
    (entries : list (pyfloat.t * Z)) : option Z :=
  match entries with
  | [] => None
  | (thr, hw) :: rest =>
    if pyfloat.ge demand_score thr then Some (clamp self hw)
    else scan self demand_score rest
  end.

Definition get_headway_minutes (self : t) (route_name : string)
    (at_ : datetime.t) (demand_score : pyfloat.t) : result Z :=
  match scan self demand_score (thresholds self) with
  | Some hw => Ok hw
  | None =>
    match last (thresholds self) with
    | Some (_, hw) => Ok (clamp self hw)
    | None => Raise IndexError
    end
  end.

Definition policy (self : t) : HeadwayPolicy :=
  Build_HeadwayPolicy (get_headway_minutes self).

End ThresholdHeadwayPolicy.

(** ** ServiceWindow and ScheduleOptions *)

Record ServiceWindow : Type := { start : time.t; end_ : time.t }.

Definition contains (self : ServiceWindow) (dt : datetime.t) : bool :=
  time.le (start self) (datetime.time dt) &&
  time.le (datetime.time dt) (end_ self).

Record ScheduleOptions : Type :=
  { service_window : ServiceWindow;
    fixed_headway_min : option Z;
    round_to_minutes : option Z }.

(** The dataclass defaults: no fixed headway, rounding to 5 minutes. *)
Definition ScheduleOptions_new (w : ServiceWindow) : ScheduleOptions :=
  {| service_window := w; fixed_headway_min := None;
     round_to_minutes := Some 5 |}.

(** Truth value of an [Optional[int]]: [None] and [0] are false. *)
Definition truthy (o : option Z) : bool :=
  match o with
  | None => false
  | Some n => negb (n =? 0)
  end.

(** ** _round_dt *)

Definition _round_dt (dt : datetime.t) (round_to_minutes : option Z)
    : result datetime.t :=
  match round_to_minutes with
  | None => Ok dt
  | Some g =>
    if negb (truthy (Some g)) || (g <=? 1) then Ok dt
    else
      discard ← timedelta.make (datetime.minute dt `mod` g)
                  (datetime.second dt) (datetime.microsecond dt);
      datetime.sub dt discard
  end.

(** ** generate_daily_schedule *)

Section generator.

Variable options : ScheduleOptions.
Variable dp : DemandProvider.
Variable hp : HeadwayPolicy.

(** Lines 109-113: the interval to the next departure. *)
Definition headway_at (route : string) (current : datetime.t) : result Z :=
  match fixed_headway_min options with
  | Some h => Ok h
  | None =>
    demand ← get_demand_score dp route current;
    get_headway_minutes hp route current demand
  end.

(** Lines 109-117: the value of [current] after one iteration. *)
Definition advance (route : string) (current : datetime.t)
    : result datetime.t :=
  headway_min ← headway_at route current;
  td ← timedelta.make headway_min 0 0;
  next ← datetime.add current td;
  if truthy (round_to_minutes options)
  then _round_dt next (round_to_minutes options)
  else Ok next.

(** [schedules[route].append(current)]. *)
Definition append_departure (schedules : gmap string (list datetime.t))
    (route : string) (current : datetime.t)
    : result (gmap string (list datetime.t)) :=
  match schedules !! route with
  | Some l => Ok (<[route := l ++ [current]]> schedules)
  | None => Raise KeyError
  end.

(** The [while] loop of lines 106-117. *)
Fixpoint while_loop (fuel : nat) (route : string) (current : datetime.t)
    (schedules : gmap string (list datetime.t))
    : option (result (gmap string (list datetime.t))) :=
  match fuel with
  | O => None
  | S fuel' =>
    if time.le (datetime.time current) (end_ (service_window options))
    then
      match append_departure schedules route current with
      | Raise e => Some (Raise e)
      | Ok schedules' =>
        match advance route current with
        | Raise e => Some (Raise e)
        | Ok next => while_loop fuel' route next schedules'
        end
      end
    else Some (Ok schedules)
  end.

(** The first value of [current] for a route (lines 103-104). *)
Definition first_departure (service_day : date.t) : result datetime.t :=
  _round_dt
    (datetime.combine service_day (start (service_window options)))
    (round_to_minutes options).

(** The [for route in routes] loop of lines 102-117. *)
Fixpoint for_routes (fuel : nat) (routes : list string)
    (service_day : date.t) (schedules : gmap string (list datetime.t))
    : option (result (gmap string (list datetime.t))) :=
  match routes with
  | [] => Some (Ok schedules)
  | route :: rest =>
    match first_departure service_day with
    | Raise e => Some (Raise e)
    | Ok current =>
      match while_loop fuel route current schedules with
      | Some (Ok schedules') => for_routes fuel rest service_day schedules'
      | other => other
      end
    end
  end.

End generator.

(** [{r: [] for r in routes}]. *)
Definition empty_schedules (routes : list string)
    : gmap string (list datetime.t) :=
  foldl (λ m r, <[r := []]> m) ∅ routes.

(** [demand_provider or SimpleDemandByHour()] and
    [headway_policy or ThresholdHeadwayPolicy()]. *)
Definition provider_or_default (demand_provider : option DemandProvider)
    : DemandProvider :=
  default (SimpleDemandByHour.provider (SimpleDemandByHour.new None None))
    demand_provider.
Definition policy_or_default (headway_policy : option HeadwayPolicy)
    : HeadwayPolicy :=
  default
    (ThresholdHeadwayPolicy.policy (ThresholdHeadwayPolicy.new None None None))
    headway_policy.

Definition generate_daily_schedule (fuel : nat) (routes : list string)
    (service_day : date.t) (options : ScheduleOptions)
    (demand_provider : option DemandProvider)
    (headway_policy : option HeadwayPolicy)
    : option (result (gmap string (list datetime.t))) :=
  if time.ge (start (service_window options)) (end_ (service_window options))
  then Some (Raise ValueError)
  else
    let dp := provider_or_default demand_provider in
    let hp := policy_or_default headway_policy in
    for_routes options dp hp fuel routes service_day (empty_schedules routes).

(** ** schedule_to_strings *)

(** The decimal digit [n], for [0 <= n <= 9]. *)
Definition digit (n : Z) : Ascii.ascii :=
  Ascii.ascii_of_nat (48 + Z.to_nat n).

(** A field of a time printed by [%H] or [%M]: two decimal digits, padded
    with a zero.  (The fields of a [datetime] are below 100.) *)
Definition two_digits (n : Z) : string :=
  String (digit (n `div` 10)) (String (digit (n `mod` 10)) EmptyString).

(** [dt.strftime("%H:%M")]. *)
Definition strftime_HM (dt : datetime.t) : string :=
  two_digits (datetime.hour dt) +:+ ":" +:+ two_digits (datetime.minute dt).

(** The loop over [schedule.items()] that fills [out]; the keys of a dict
    are distinct, so the order in which they are visited does not show in
    the result. *)
Definition schedule_to_strings (schedule : gmap string (list datetime.t))
    : gmap string (list string) :=
  map_fold (λ route times out, <[route := strftime_HM <$> times]> out)
    ∅ schedule.

(** * Notions used to state the properties *)

(** The instants a [datetime] can hold, in microseconds. *)
Definition us_min : Z := date.min_ordinal * timedelta.us_per_day.
Definition us_max : Z := (date.max_ordinal + 1) * timedelta.us_per_day.

(** The granularity that rounding really uses: 0 when [_round_dt] leaves
    its argument alone ([None], or a value of at most 1). *)
Definition granularity (round_to_minutes : option Z) : Z :=
  match round_to_minutes with
  | Some g => if g <=? 1 then 0 else g
  | None => 0
  end.

(** The value [_round_dt] returns for a granularity above 1, field by
    field. *)
Definition floor_minutes (x : datetime.t) (g : Z) : datetime.t :=
  datetime.mk (datetime.ordinal x) (datetime.hour x)
    (datetime.minute x - datetime.minute x `mod` g) 0 0.

(** The start of the service window as the generator rounds it. *)
Definition rounded_start (options : ScheduleOptions) : time.t :=
  let s := start (service_window options) in
  let g := granularity (round_to_minutes options) in
  if g =? 0 then s
  else time.mk (time.hour s) (time.minute s - time.minute s `mod` g) 0 0.

(** A timestamp that rounding leaves as it is: a whole minute that is a
    multiple of the granularity (any timestamp when rounding is off). *)
Definition aligned (round_to_minutes : option Z) (x : datetime.t) : Prop :=
  granularity round_to_minutes = 0 ∨
  (datetime.minute x `mod` granularity round_to_minutes = 0 ∧
   datetime.second x = 0 ∧ datetime.microsecond x = 0).

(** The clamp of [SimpleDemandByHour.get_demand_score]. *)
Definition clamp_unit (v : pyfloat.t) : pyfloat.t :=
  pyfloat.max pyfloat.f0_0 (pyfloat.min pyfloat.f1_0 v).

(** A sequence of departures whose times of day strictly increase. *)
Definition increasing_time_of_day (l : list datetime.t) : Prop :=
  ∀ (i j : nat) (a b : datetime.t),
    (i < j)%nat → l !! i = Some a → l !! j = Some b →
    time.cmp (datetime.time a) (datetime.time b) = Lt.

(** The departures one execution of the [while] loop appends, as a
    relation: [run_from route current l] holds when the loop entered with
    [current] leaves after appending exactly [l]. *)
Inductive run_from (options : ScheduleOptions) (dp : DemandProvider)
    (hp : HeadwayPolicy) (route : string)
    : datetime.t → list datetime.t → Prop :=
| run_stop (current : datetime.t) :
    time.le (datetime.time current) (end_ (service_window options)) = false →
    run_from options dp hp route current []
| run_step (current next : datetime.t) (l : list datetime.t) :
    time.le (datetime.time current) (end_ (service_window options)) = true →
    advance options dp hp route current = Ok next →
    run_from options dp hp route next l →
    run_from options dp hp route current (current :: l).

(** The datetimes the [while] loop visits: [reaches route current x] holds
    when the loop entered with [current] has [x] as its clock after some
    number of iterations, each begun inside the window and completed
    without an exception.  The loop computes a headway at [x] when [x] is
    visited and its time of day is not after the end of the window. *)
Inductive reaches (options : ScheduleOptions) (dp : DemandProvider)
    (hp : HeadwayPolicy) (route : string)
    : datetime.t → datetime.t → Prop :=
| reaches_here (current : datetime.t) :
    reaches options dp hp route current current
| reaches_later (current next x : datetime.t) :
    time.le (datetime.time current) (end_ (service_window options)) = true →
    advance options dp hp route current = Ok next →
    reaches options dp hp route next x →
    reaches options dp hp route current x.

(** The schedule of a route that the list names [k] times: [k] copies of
    [l], one after the other. *)
Definition repeated (k : nat) (l : list datetime.t) : list datetime.t :=
  concat (replicate k l).

(** How often a route is named in the list. *)
Definition occurrences (route : string) (routes : list string) : nat :=
  length (filter (λ r, r = route) routes).

(** * Example inputs *)

(** 2021-07-29 as an ordinal. *)
Definition demo_day : date.t := 738000.

(** The schedule a call returned, or the empty map when it did not
    return one. *)
Definition schedule_of
    (outcome : option (result (gmap string (list datetime.t))))
    : gmap string (list datetime.t) :=
  match outcome with
  | Some (Ok schedule) => schedule
  | _ => ∅
  end.

(** The departures a call returned for a route; [None] when the call did
    not return a schedule or the schedule has no such route. *)
Definition departures_of
    (outcome : option (result (gmap string (list datetime.t))))
    (route : string) : option (list datetime.t) :=
  match outcome with
  | Some (Ok schedule) => schedule !! route
  | _ => None
  end.

(** Half an hour of service with the default rounding to five minutes. *)
Definition demo_options : ScheduleOptions :=
  ScheduleOptions_new
    {| start := time.mk 7 0 0 0; end_ := time.mk 7 30 0 0 |}.

Definition demo_single : gmap string (list datetime.t) :=
  schedule_of
    (generate_daily_schedule 10 ["Ruta_Centro"] demo_day demo_options
       None None).

(** A call whose list names the first route twice. *)
Definition demo_duplicates : gmap string (list datetime.t) :=
  schedule_of
    (generate_daily_schedule 10 ["Ruta_Centro"; "Ruta_Norte"; "Ruta_Centro"]
       demo_day demo_options None None).

(** An hour of service with a fixed headway of thirty minutes and no
    rounding. *)
Definition demo_fixed_options : ScheduleOptions :=
  {| service_window :=
       {| start := time.mk 6 0 0 0; end_ := time.mk 7 0 0 0 |};
     fixed_headway_min := Some 30; round_to_minutes := None |}.

Definition demo_fixed : gmap string (list datetime.t) :=
  schedule_of
    (generate_daily_schedule 10 ["Ruta_Centro"] demo_day demo_fixed_options
       None None).

(** An evening of service, 20:00-23:35, with the default rounding. *)
Definition demo_evening_options : ScheduleOptions :=
  ScheduleOptions_new
    {| start := time.mk 20 0 0 0; end_ := time.mk 23 35 0 0 |}.

(** 20:00 plus [20 * k] minutes for [k = 0 .. 10]. *)
Definition demo_evening_departures : list datetime.t :=
  (λ k, datetime.mk demo_day (20 + (20 * k) `div` 60) ((20 * k) `mod` 60) 0 0)
    <$> seqZ 0 11.

(** A custom policy whose headway is always zero. *)
Definition zero_headway_policy : HeadwayPolicy :=
  Build_HeadwayPolicy (λ _ _ _, Ok 0).

(** The options of the two-hour scenario: window 07:00-09:00, no fixed
    headway, rounding as given. *)
Definition scenario_b_options (round_to_minutes : option Z)
    : ScheduleOptions :=
  {| service_window :=
       {| start := time.mk 7 0 0 0; end_ := time.mk 9 0 0 0 |};
     fixed_headway_min := None;
     round_to_minutes := round_to_minutes |}.

(** 07:00 plus [8 * k] minutes for [k = 0 .. 15], on the given day. *)
Definition scenario_b_departures (service_day : date.t) : list datetime.t :=
  (λ k, datetime.mk service_day (7 + (8 * k) `div` 60) ((8 * k) `mod` 60) 0 0)
    <$> seqZ 0 16.

(** * Further notions *)

(** A float that is not NaN. *)
Definition ordered (x : pyfloat.t) : Prop := x ≠ S754_nan.

(** A table in which each entry has a threshold at least that of the
    next entry. *)
Definition descending (l : list (pyfloat.t * Z)) : Prop :=
  Sorted (λ a b, pyfloat.ge a.1 b.1 = true) l.

(** A table in which no entry has a threshold above that of an earlier
    entry. *)
Definition never_ascending (l : list (pyfloat.t * Z)) : Prop :=
  StronglySorted (λ a b, pyfloat.lt a.1 b.1 = false) l.

(** A table whose thresholds strictly decrease. *)
Definition strictly_descending (l : list (pyfloat.t * Z)) : Prop :=
  StronglySorted (λ a b, pyfloat.gt a.1 b.1 = true) l.

(** The last time of a day, [time.max]. *)
Definition time_max : time.t := time.mk 23 59 59 999999.

(** A table whose headways never decrease from one entry to a later
    one. *)
Definition headways_grow (l : list (pyfloat.t * Z)) : Prop :=
  StronglySorted (λ a b, a.2 <= b.2) l.

(** * Properties *)

(** ** Order on times *)

Lemma time_cmp_refl (a : time.t) : time.cmp a a = Eq.
Proof. unfold time.cmp. by rewrite !Z.compare_refl. Qed.

(** ** The service-window check *)

(** C4: when the service window has [start == end] or [start > end],
    [generate_daily_schedule] raises the [ValueError] of the window check
    (the specification's InvalidConfiguration), whatever the routes, the
    day, the providers and the fuel are: with no fuel at all the answer is
    already the exception, so no route is processed and no schedule, not
    even a partial one, is produced. *)
Theorem invalid_window_raises (fuel : nat) (routes : list string)
    (service_day : date.t) (options : ScheduleOptions)
    (demand_provider : option DemandProvider)
    (headway_policy : option HeadwayPolicy) :
  start (service_window options) = end_ (service_window options) ∨
  time.cmp (start (service_window options)) (end_ (service_window options))
    = Gt →
  generate_daily_schedule fuel routes service_day options demand_provider
    headway_policy = Some (Raise ValueError).
Proof.
  intros Hbad. unfold generate_daily_schedule, time.ge.
  destruct Hbad as [-> | ->]; [by rewrite time_cmp_refl | done].
Qed.

Lemma invalid_window_raises_witness :
  generate_daily_schedule 0 ["Ruta_Centro"] demo_day
    {| service_window :=
         {| start := time.mk 22 0 0 0; end_ := time.mk 6 0 0 0 |};
       fixed_headway_min := None; round_to_minutes := Some 5 |}
    None None = Some (Raise ValueError).
Proof. apply invalid_window_raises. right. reflexivity. Defined.

(** ** Arithmetic of times and datetimes *)

Lemma time_cmp_to_us (a b : time.t) :
  time.valid a → time.valid b →
  time.cmp a b = (time.to_us a ?= time.to_us b).
Proof.
  destruct a as [h1 m1 s1 u1], b as [h2 m2 s2 u2].
  unfold time.valid, time.cmp, time.to_us; simpl. intros Ha Hb.
  destruct (Z.compare_spec h1 h2);
    [ destruct (Z.compare_spec m1 m2);
      [ destruct (Z.compare_spec s1 s2);
        [ destruct (Z.compare_spec u1 u2) | .. ] | .. ] | .. ];
    symmetry;
    first [ apply Z.compare_eq_iff | apply Z.compare_lt_iff
          | apply Z.compare_gt_iff ]; lia.
Qed.

Lemma time_le_to_us (a b : time.t) :
  time.valid a → time.valid b →
  time.le a b = true ↔ time.to_us a <= time.to_us b.
Proof.
  intros Ha Hb. unfold time.le. rewrite time_cmp_to_us by done.
  case Z.compare_spec; intros; split; intros; try done; lia.
Qed.

Lemma time_to_us_range (a : time.t) :
  time.valid a → 0 <= time.to_us a < timedelta.us_per_day.
Proof.
  destruct a; unfold time.valid, time.to_us, timedelta.us_per_day; simpl. lia.
Qed.

Lemma datetime_time_valid (x : datetime.t) :
  datetime.valid x → time.valid (datetime.time x).
Proof. unfold datetime.valid, time.valid. simpl. tauto. Qed.

Lemma combine_valid (d : date.t) (x : time.t) :
  date.valid d → time.valid x → datetime.valid (datetime.combine d x).
Proof. unfold datetime.valid, time.valid. simpl. tauto. Qed.

Lemma to_us_split (x : datetime.t) :
  datetime.to_us x =
  datetime.ordinal x * timedelta.us_per_day + time.to_us (datetime.time x).
Proof. unfold datetime.to_us, time.to_us. simpl. lia. Qed.

Lemma to_us_of_us (z : Z) : datetime.to_us (datetime.of_us z) = z.
Proof.
  unfold datetime.to_us, datetime.of_us, timedelta.us_per_day. simpl.
  Z.div_mod_to_equations; lia.
Qed.

Lemma of_us_to_us (x : datetime.t) :
  0 <= datetime.hour x < 24 → 0 <= datetime.minute x < 60 →
  0 <= datetime.second x < 60 → 0 <= datetime.microsecond x < 1000000 →
  datetime.of_us (datetime.to_us x) = x.
Proof.
  destruct x as [d h m s u]. simpl. intros.
  unfold datetime.to_us, datetime.of_us, timedelta.us_per_day. simpl.
  f_equal; Z.div_mod_to_equations; lia.
Qed.

Lemma to_us_inj (x y : datetime.t) :
  datetime.valid x → datetime.valid y →
  datetime.to_us x = datetime.to_us y → x = y.
Proof.
  intros (_ & ? & ? & ? & ?) (_ & ? & ? & ? & ?) Heq.
  rewrite <- (of_us_to_us x), <- (of_us_to_us y) by done. by rewrite Heq.
Qed.

Lemma valid_to_us_range (x : datetime.t) :
  datetime.valid x → us_min <= datetime.to_us x < us_max.
Proof.
  destruct x. unfold datetime.valid, date.valid, datetime.to_us, us_min,
    us_max, date.min_ordinal, date.max_ordinal, timedelta.us_per_day.
  simpl. lia.
Qed.

Lemma of_us_valid (z : Z) :
  us_min <= z < us_max → datetime.valid (datetime.of_us z).
Proof.
  unfold us_min, us_max, datetime.valid, date.valid, datetime.of_us,
    date.min_ordinal, date.max_ordinal, timedelta.us_per_day. simpl.
  intros Hz. repeat split; Z.div_mod_to_equations; lia.
Qed.

(** [dt + td] succeeds exactly when the sum is a representable instant. *)
Lemma add_in_range (x : datetime.t) (td : Z) :
  us_min <= datetime.to_us x + td < us_max →
  datetime.add x td = Ok (datetime.of_us (datetime.to_us x + td)).
Proof.
  intros Hr. unfold datetime.add.
  destruct (of_us_valid _ Hr) as ([Hlo Hhi] & _).
  apply Z.leb_le in Hlo, Hhi. by rewrite Hlo, Hhi.
Qed.

Lemma add_out_of_range (x : datetime.t) (td : Z) :
  ¬ (us_min <= datetime.to_us x + td < us_max) →
  datetime.add x td = Raise OverflowError.
Proof.
  intros Hr. unfold datetime.add.
  destruct (_ && _) eqn:Hb; [|done]. exfalso. apply Hr.
  apply andb_true_iff in Hb as [Hlo Hhi]. apply Z.leb_le in Hlo, Hhi.
  revert Hlo Hhi.
  unfold us_min, us_max, datetime.of_us, date.min_ordinal, date.max_ordinal,
    timedelta.us_per_day. simpl. intros. Z.div_mod_to_equations; lia.
Qed.

Lemma add_spec (x r : datetime.t) (td : Z) :
  datetime.add x td = Ok r →
  datetime.valid r ∧ datetime.to_us r = datetime.to_us x + td.
Proof.
  intros Hadd.
  destruct (decide (us_min <= datetime.to_us x + td < us_max)) as [Hr|Hr].
  - rewrite add_in_range in Hadd by done. injection Hadd as <-.
    split; [by apply of_us_valid | apply to_us_of_us].
  - by rewrite add_out_of_range in Hadd.
Qed.

Lemma make_minutes (h : Z) (td : Z) :
  timedelta.make h 0 0 = Ok td → td = h * 60000000.
Proof.
  unfold timedelta.make. destruct (_ && _); [|done]. intros [= <-]. lia.
Qed.

(** ** Rounding *)

Lemma round_dt_off (x : datetime.t) (g : option Z) :
  granularity g = 0 → _round_dt x g = Ok x.
Proof.
  destruct g as [g|]; [|done]. unfold granularity, _round_dt, truthy.
  destruct (g <=? 1) eqn:Hg; [by rewrite orb_true_r | ].
  apply Z.leb_gt in Hg. lia.
Qed.

Lemma round_dt_on (x : datetime.t) (g : Z) :
  datetime.valid x → 1 < g →
  _round_dt x (Some g) = Ok (floor_minutes x g).
Proof.
  intros Hx Hg. unfold _round_dt, truthy.
  replace (g =? 0) with false by (symmetry; apply Z.eqb_neq; lia).
  replace (g <=? 1) with false by (symmetry; apply Z.leb_gt; lia).
  simpl. destruct Hx as (Hd & Hh & Hm & Hs & Hu).
  pose proof (Z.mod_pos_bound (datetime.minute x) g ltac:(lia)) as Hmod.
  pose proof (Z.mod_le (datetime.minute x) g ltac:(lia) ltac:(lia)) as Hle.
  unfold timedelta.make, floor_minutes.
  generalize dependent (datetime.minute x `mod` g). intros r Hmod Hle.
  remember (r * 60000000 + datetime.second x * 1000000 +
            datetime.microsecond x) as us eqn:Hus.
  assert (Hsmall : 0 <= us < 3600000000) by lia.
  replace (us / timedelta.us_per_day) with 0
    by (unfold timedelta.us_per_day; symmetry; apply Z.div_small; lia).
  simpl. unfold datetime.sub.
  remember (datetime.mk _ _ _ _ _) as y eqn:Hy.
  assert (Heq : datetime.to_us x + - us = datetime.to_us y).
  { subst y. unfold datetime.to_us. simpl. lia. }
  assert (Hv : datetime.valid y).
  { subst y. unfold datetime.valid. simpl.
    split; [done | repeat split; lia]. }
  rewrite add_in_range; rewrite Heq.
  - f_equal. destruct Hv as (_ & ? & ? & ? & ?). by apply of_us_to_us.
  - by apply valid_to_us_range.
Qed.

Lemma floor_minutes_valid (x : datetime.t) (g : Z) :
  datetime.valid x → 1 < g → datetime.valid (floor_minutes x g).
Proof.
  intros (Hd & Hh & Hm & Hs & Hu) Hg.
  pose proof (Z.mod_pos_bound (datetime.minute x) g ltac:(lia)).
  pose proof (Z.mod_le (datetime.minute x) g ltac:(lia) ltac:(lia)).
  unfold datetime.valid, floor_minutes. simpl.
  generalize dependent (datetime.minute x `mod` g). intros.
  split; [done | repeat split; lia].
Qed.

Lemma floor_minutes_minute (x : datetime.t) (g : Z) :
  1 < g → datetime.minute (floor_minutes x g) `mod` g = 0.
Proof.
  intros Hg. unfold floor_minutes. simpl.
  set (m := datetime.minute x).
  replace (m - m `mod` g) with (m `div` g * g)
    by (rewrite (Z.mod_eq m g) by lia; lia).
  apply Z.mod_mul. lia.
Qed.

(** C9: rounding a timestamp twice with the same granularity gives what
    rounding it once gives, for every timestamp and every value of
    [round_to_minutes] ([None], zero and negative values included). *)
Theorem round_dt_idempotent (dt : datetime.t) (round_to_minutes : option Z) :
  datetime.valid dt →
  (_round_dt dt round_to_minutes ≫= λ once, _round_dt once round_to_minutes)
  = _round_dt dt round_to_minutes.
Proof.
  intros Hdt.
  destruct (decide (granularity round_to_minutes = 0)) as [Hoff|Hon].
  - rewrite !round_dt_off by done. simpl. by apply round_dt_off.
  - destruct round_to_minutes as [g|]; [|done].
    unfold granularity in Hon.
    destruct (g <=? 1) eqn:Hg; [done|]. apply Z.leb_gt in Hg.
    rewrite round_dt_on by done.
    change (_round_dt (floor_minutes dt g) (Some g)
            = Ok (floor_minutes dt g)).
    rewrite round_dt_on by (done || by apply floor_minutes_valid).
    f_equal. unfold floor_minutes at 1.
    rewrite floor_minutes_minute by lia. by rewrite Z.sub_0_r.
Qed.

Lemma round_dt_idempotent_witness :
  (_round_dt (datetime.mk 738000 7 38 12 500) (Some 5)
     ≫= λ once, _round_dt once (Some 5))
  = _round_dt (datetime.mk 738000 7 38 12 500) (Some 5).
Proof.
  apply round_dt_idempotent.
  unfold datetime.valid, date.valid, date.min_ordinal, date.max_ordinal.
  simpl. lia.
Defined.

(** ** The demand table *)

Lemma float_lt_le (a b : pyfloat.t) :
  pyfloat.lt a b = true → pyfloat.le a b = true.
Proof.
  unfold pyfloat.lt, pyfloat.le, SFltb, SFleb.
  by destruct (SFcompare a b) as [[]|].
Qed.

Lemma clamp_unit_in_unit (v : pyfloat.t) :
  pyfloat.in_unit (clamp_unit v) = true.
Proof.
  unfold clamp_unit, pyfloat.min, pyfloat.max, pyfloat.gt.
  destruct (pyfloat.lt v pyfloat.f1_0) eqn:Hhi.
  - destruct (SFltb pyfloat.f0_0 v) eqn:Hlo; [|done].
    unfold pyfloat.in_unit. apply andb_true_iff. split; by apply float_lt_le.
  - done.
Qed.

(** C7: for every table and base the estimator is configured with (the
    defaults included), every route and every datetime, the score lies in
    [[0, 1]]: it is the clamp of the table's value for the datetime's hour,
    or the clamp of the base when the table has no entry for that hour;
    with the default base the latter is 0.4. *)
Theorem demand_score_clamped (by_hour : option (gmap Z pyfloat.t))
    (base : option pyfloat.t) (route_name : string) (at_ : datetime.t) :
  let self := SimpleDemandByHour.new by_hour base in
  let score := SimpleDemandByHour.get_demand_score self route_name at_ in
  pyfloat.in_unit score = true ∧
  (∀ v, SimpleDemandByHour.by_hour self !! datetime.hour at_ = Some v →
        score = clamp_unit v) ∧
  (SimpleDemandByHour.by_hour self !! datetime.hour at_ = None →
   score = clamp_unit (SimpleDemandByHour.base self) ∧
   (base = None → score = pyfloat.f0_4)).
Proof.
  intros self score. split; [apply clamp_unit_in_unit|].
  unfold score, SimpleDemandByHour.get_demand_score. split.
  - by intros v ->.
  - intros ->. split; [done|]. by intros ->.
Qed.

Lemma demand_score_clamped_witness :
  SimpleDemandByHour.get_demand_score
    (SimpleDemandByHour.new (Some {[ 7 := Prim2SF 3.5%float ]}) None)
    "Ruta_Norte" (datetime.mk 738000 7 30 0 0) = pyfloat.f1_0 ∧
  SimpleDemandByHour.get_demand_score
    (SimpleDemandByHour.new (Some {[ 7 := Prim2SF 3.5%float ]}) None)
    "Ruta_Norte" (datetime.mk 738000 12 30 0 0) = pyfloat.f0_4.
Proof.
  pose proof (demand_score_clamped (Some {[ 7 := Prim2SF 3.5%float ]}) None
                "Ruta_Norte" (datetime.mk 738000 7 30 0 0)) as (_ & Hin & _).
  pose proof (demand_score_clamped (Some {[ 7 := Prim2SF 3.5%float ]}) None
                "Ruta_Norte" (datetime.mk 738000 12 30 0 0)) as (_ & _ & Hout).
  split.
  - by rewrite (Hin (Prim2SF 3.5%float) eq_refl).
  - by apply Hout.
Defined.

(** The default estimator answers from its table at every hour of the
    day, and the default table holds scores of [[0, 1]] only. *)
Lemma default_table_total (h : Z) :
  0 <= h < 24 →
  ∃ v, SimpleDemandByHour.default_by_hour !! h = Some v ∧ clamp_unit v = v.
Proof.
  intros Hh.
  assert (Hcases : h = 0 ∨ h = 1 ∨ h = 2 ∨ h = 3 ∨ h = 4 ∨ h = 5 ∨ h = 6 ∨
    h = 7 ∨ h = 8 ∨ h = 9 ∨ h = 10 ∨ h = 11 ∨ h = 12 ∨ h = 13 ∨ h = 14 ∨
    h = 15 ∨ h = 16 ∨ h = 17 ∨ h = 18 ∨ h = 19 ∨ h = 20 ∨ h = 21 ∨ h = 22 ∨
    h = 23) by lia.
  repeat (destruct Hcases as [-> | Hcases]; [eexists; split; reflexivity|]).
  subst h. eexists; split; reflexivity.
Qed.

(** ** The threshold policy *)

Lemma int_min_spec (a b : Z) : int_min a b = Z.min a b.
Proof. unfold int_min. destruct (Z.ltb_spec b a); lia. Qed.

Lemma int_max_spec (a b : Z) : int_max a b = Z.max a b.
Proof. unfold int_max. destruct (Z.ltb_spec a b); lia. Qed.

Lemma clamp_bounds (self : ThresholdHeadwayPolicy.t) (hw : Z) :
  ThresholdHeadwayPolicy.min_headway self
    <= ThresholdHeadwayPolicy.max_headway self →
  ThresholdHeadwayPolicy.min_headway self
    <= ThresholdHeadwayPolicy.clamp self hw
    <= ThresholdHeadwayPolicy.max_headway self.
Proof.
  unfold ThresholdHeadwayPolicy.clamp. rewrite int_max_spec, int_min_spec. lia.
Qed.

Lemma scan_bounds (self : ThresholdHeadwayPolicy.t) (score : pyfloat.t)
    (entries : list (pyfloat.t * Z)) (h : Z) :
  ThresholdHeadwayPolicy.scan self score entries = Some h →
  ∃ hw, h = ThresholdHeadwayPolicy.clamp self hw.
Proof.
  induction entries as [|[thr hw] rest IH]; simpl; [done|].
  destruct (pyfloat.ge score thr); [|done]. intros [= <-]. by exists hw.
Qed.

(** Whatever the table, a headway the policy returns is a clamped one. *)
Lemma headway_is_clamped (self : ThresholdHeadwayPolicy.t)
    (route_name : string) (at_ : datetime.t) (score : pyfloat.t) (h : Z) :
  ThresholdHeadwayPolicy.get_headway_minutes self route_name at_ score = Ok h →
  ∃ hw, h = ThresholdHeadwayPolicy.clamp self hw.
Proof.
  unfold ThresholdHeadwayPolicy.get_headway_minutes.
  destruct (ThresholdHeadwayPolicy.scan _ _ _) as [h'|] eqn:Hscan.
  - intros [= <-]. by eapply scan_bounds.
  - destruct (last _) as [[thr hw]|]; [|done]. intros [= <-]. by exists hw.
Qed.

(** A policy with a table always answers. *)
Lemma headway_defined (self : ThresholdHeadwayPolicy.t)
    (route_name : string) (at_ : datetime.t) (score : pyfloat.t) :
  ThresholdHeadwayPolicy.thresholds self ≠ [] →
  ∃ h,
    ThresholdHeadwayPolicy.get_headway_minutes self route_name at_ score
    = Ok h.
Proof.
  intros Hne. unfold ThresholdHeadwayPolicy.get_headway_minutes.
  destruct (ThresholdHeadwayPolicy.scan _ _ _) as [h'|]; [by eexists|].
  destruct (last _) as [[thr hw]|] eqn:Hlast; [by eexists|].
  by apply last_None in Hlast.
Qed.

Lemma default_policy_thresholds :
  ThresholdHeadwayPolicy.thresholds
    (ThresholdHeadwayPolicy.new None None None)
  = ThresholdHeadwayPolicy.default_thresholds.
Proof. reflexivity. Qed.

(** C6: the default policy answers every demand score (those of [[0, 1]],
    the boundary scores 0.85, 0.70, 0.50, 0.30 and 0.00 among them, and
    every other float as well) with a headway between its [min_headway] and
    its [max_headway], which are 6 and 60. *)
Theorem default_headway_in_range (route_name : string) (at_ : datetime.t)
    (demand_score : pyfloat.t) :
  let self := ThresholdHeadwayPolicy.new None None None in
  ∃ h,
    ThresholdHeadwayPolicy.get_headway_minutes self route_name at_
      demand_score = Ok h ∧
    ThresholdHeadwayPolicy.min_headway self <= h
      <= ThresholdHeadwayPolicy.max_headway self ∧
    ThresholdHeadwayPolicy.min_headway self = 6 ∧
    ThresholdHeadwayPolicy.max_headway self = 60.
Proof.
  intros self.
  destruct (headway_defined self route_name at_ demand_score) as [h Hh];
    [done|].
  exists h. split; [done|]. split; [|done].
  destruct (headway_is_clamped _ _ _ _ _ Hh) as [hw ->].
  apply clamp_bounds. simpl. lia.
Qed.

(** C8: in the default policy a score equal to a threshold of the table
    selects the entry of that very threshold, because the test is [>=] and
    the table is scanned from the highest threshold down: 0.85 gives 8,
    0.70 gives 10 (not the 15 of the 0.50 entry), 0.50 gives 15, 0.30 gives
    20 and 0.00 gives 30. *)
Theorem threshold_tie_selects_own_entry (route_name : string)
    (at_ : datetime.t) (thr : pyfloat.t) (hw : Z) :
  (thr, hw) ∈ ThresholdHeadwayPolicy.thresholds
                (ThresholdHeadwayPolicy.new None None None) →
  ThresholdHeadwayPolicy.get_headway_minutes
    (ThresholdHeadwayPolicy.new None None None) route_name at_ thr = Ok hw.
Proof.
  rewrite default_policy_thresholds.
  unfold ThresholdHeadwayPolicy.default_thresholds.
  rewrite !elem_of_cons, elem_of_nil.
  intros [[= -> ->] | [[= -> ->] | [[= -> ->] | [[= -> ->] | [[= -> ->] | []]]]]];
    reflexivity.
Qed.

Lemma threshold_tie_selects_own_entry_witness :
  ThresholdHeadwayPolicy.get_headway_minutes
    (ThresholdHeadwayPolicy.new None None None) "Ruta_Centro"
    (datetime.mk 738000 12 0 0 0) pyfloat.f0_7 = Ok 10.
Proof.
  apply threshold_tie_selects_own_entry.
  rewrite default_policy_thresholds.
  unfold ThresholdHeadwayPolicy.default_thresholds.
  rewrite !elem_of_cons. right. by left.
Defined.

(** ** One iteration of the loop *)

Lemma floor_minutes_spec (x : datetime.t) (g : Z) :
  datetime.valid x → 1 < g →
  datetime.to_us (floor_minutes x g) =
    datetime.to_us x - (datetime.minute x `mod` g) * 60000000
    - datetime.second x * 1000000 - datetime.microsecond x ∧
  0 <= datetime.minute x `mod` g <= datetime.minute x ∧
  datetime.minute x `mod` g < g.
Proof.
  intros (Hd & Hh & Hm & Hs & Hu) Hg.
  pose proof (Z.mod_pos_bound (datetime.minute x) g ltac:(lia)).
  pose proof (Z.mod_le (datetime.minute x) g ltac:(lia) ltac:(lia)).
  unfold floor_minutes, datetime.to_us. simpl.
  generalize dependent (datetime.minute x `mod` g). intros. lia.
Qed.

(** Adding whole minutes keeps the seconds and the microseconds. *)
Lemma add_minutes_keeps_seconds (x y : datetime.t) (h : Z) :
  datetime.valid x → datetime.valid y →
  datetime.to_us y = datetime.to_us x + h * 60000000 →
  datetime.second y = datetime.second x ∧
  datetime.microsecond y = datetime.microsecond x.
Proof.
  intros (_ & Hh & Hm & Hs & Hu) (_ & Hh' & Hm' & Hs' & Hu').
  unfold datetime.to_us, timedelta.us_per_day. intros Heq. lia.
Qed.

Lemma granularity_on (round_to_minutes : option Z) :
  granularity round_to_minutes ≠ 0 →
  1 < granularity round_to_minutes.
Proof.
  unfold granularity. destruct round_to_minutes as [g|]; [|done].
  destruct (Z.leb_spec g 1); [done|lia].
Qed.

Lemma granularity_some (round_to_minutes : option Z) :
  granularity round_to_minutes ≠ 0 →
  round_to_minutes = Some (granularity round_to_minutes).
Proof.
  unfold granularity. destruct round_to_minutes as [g|]; [|done].
  by destruct (Z.leb_spec g 1).
Qed.

(** What an iteration computes: the headway, the sum before rounding and
    the rounded sum. *)
Lemma advance_spec (options : ScheduleOptions) (dp : DemandProvider)
    (hp : HeadwayPolicy) (route : string) (current next : datetime.t) :
  datetime.valid current →
  advance options dp hp route current = Ok next →
  ∃ h raw,
    headway_at options dp hp route current = Ok h ∧
    datetime.add current (h * 60000000) = Ok raw ∧
    datetime.valid raw ∧
    datetime.to_us raw = datetime.to_us current + h * 60000000 ∧
    _round_dt raw (round_to_minutes options) = Ok next ∧
    next = (if granularity (round_to_minutes options) =? 0 then raw
            else floor_minutes raw (granularity (round_to_minutes options))).
Proof.
  intros Hcur. unfold advance.
  destruct (headway_at options dp hp route current) as [h|] eqn:Hh; [|done].
  simpl. destruct (timedelta.make h 0 0) as [td|] eqn:Htd; [|done].
  apply make_minutes in Htd as ->. simpl.
  destruct (datetime.add current (h * 60000000)) as [raw|] eqn:Hadd; [|done].
  simpl. destruct (add_spec _ _ _ Hadd) as [Hraw Hus].
  intros Hnext. exists h, raw. do 4 (split; [done|]). split.
  - destruct (truthy (round_to_minutes options)) eqn:Ht; [done|].
    rewrite round_dt_off; [done|].
    destruct (round_to_minutes options) as [g|]; [|done].
    simpl in Ht. apply negb_false_iff, Z.eqb_eq in Ht as ->. reflexivity.
  - destruct (decide (granularity (round_to_minutes options) = 0)) as [Hg|Hg].
    + rewrite Hg. simpl.
      destruct (truthy _); [|congruence].
      rewrite round_dt_off in Hnext by done. congruence.
    + replace (granularity _ =? 0) with false
        by (symmetry; by apply Z.eqb_neq).
      destruct (round_to_minutes options) as [g|] eqn:Hopt; [|done].
      unfold granularity in *. destruct (g <=? 1) eqn:Hle; [done|].
      apply Z.leb_gt in Hle.
      replace (truthy (Some g)) with true in Hnext
        by (symmetry; apply negb_true_iff, Z.eqb_neq; lia).
      rewrite round_dt_on in Hnext by done. congruence.
Qed.

(** An iteration whose headway is at least one minute, and at least the
    granularity when rounding is on, moves the clock forward by a minute or
    more, and by no more than the headway. *)
Lemma advance_progress (options : ScheduleOptions) (dp : DemandProvider)
    (hp : HeadwayPolicy) (route : string) (current next : datetime.t) (h : Z) :
  datetime.valid current →
  aligned (round_to_minutes options) current →
  headway_at options dp hp route current = Ok h →
  Z.max 1 (granularity (round_to_minutes options)) <= h →
  advance options dp hp route current = Ok next →
  datetime.valid next ∧ aligned (round_to_minutes options) next ∧
  datetime.to_us current + 60000000 <= datetime.to_us next
    <= datetime.to_us current + h * 60000000.
Proof.
  intros Hcur Hal Hh Hlo Hadv.
  destruct (advance_spec _ _ _ _ _ _ Hcur Hadv)
    as (h' & raw & Hh' & _ & Hraw & Hus & _ & ->).
  assert (h' = h) as -> by congruence.
  destruct (add_minutes_keeps_seconds _ _ _ Hcur Hraw Hus) as [Hs Hu].
  unfold aligned in *.
  destruct (Z.eqb_spec (granularity (round_to_minutes options)) 0) as [Hg|Hg].
  - split; [done|]. split; [by left|]. lia.
  - destruct Hal as [Hal|(_ & Hs0 & Hu0)]; [done|].
    pose proof (granularity_on _ Hg) as Hg1.
    split; [by apply floor_minutes_valid|].
    split; [right; by split; [apply floor_minutes_minute|]|].
    destruct (floor_minutes_spec raw _ Hraw Hg1) as (-> & Hm1 & Hm2).
    rewrite Hs, Hu, Hs0, Hu0.
    generalize dependent (datetime.minute raw `mod`
                            granularity (round_to_minutes options)).
    intros. lia.
Qed.

(** With a headway of a minute or more the clock does not move back, even
    when the headway is shorter than the granularity. *)
Lemma advance_monotone (options : ScheduleOptions) (dp : DemandProvider)
    (hp : HeadwayPolicy) (route : string) (current next : datetime.t) (h : Z) :
  datetime.valid current →
  aligned (round_to_minutes options) current →
  headway_at options dp hp route current = Ok h →
  1 <= h →
  advance options dp hp route current = Ok next →
  datetime.valid next ∧ aligned (round_to_minutes options) next ∧
  datetime.to_us current <= datetime.to_us next
    <= datetime.to_us current + h * 60000000.
Proof.
  intros Hcur Hal Hh Hlo Hadv.
  destruct (advance_spec _ _ _ _ _ _ Hcur Hadv)
    as (h' & raw & Hh' & _ & Hraw & Hus & _ & ->).
  assert (h' = h) as -> by congruence.
  destruct (add_minutes_keeps_seconds _ _ _ Hcur Hraw Hus) as [Hs Hu].
  destruct (Z.eqb_spec (granularity (round_to_minutes options)) 0) as [Hg|Hg].
  - split; [done|]. split; [by left|]. lia.
  - destruct Hal as [Hal|(Hm0 & Hs0 & Hu0)]; [done|].
    pose proof (granularity_on _ Hg) as Hg1.
    set (g := granularity (round_to_minutes options)) in *.
    split; [by apply floor_minutes_valid|].
    split; [right; by split; [apply floor_minutes_minute|]|].
    destruct (floor_minutes_spec raw _ Hraw Hg1) as (-> & Hm1 & Hm2).
    rewrite Hs, Hu, Hs0, Hu0.
    destruct Hcur as (_ & Hch & Hcm & _), Hraw as (_ & Hrh & Hrm & _).
    revert Hus. unfold datetime.to_us, timedelta.us_per_day.
    rewrite Hs, Hu, Hs0, Hu0. intros Hus.
    pose proof (Z.div_mod (datetime.minute raw) g ltac:(lia)) as Hdm.
    pose proof (Z.div_mod (datetime.minute current) g ltac:(lia)) as Hdc.
    rewrite Hm0 in Hdc.
    destruct (decide (datetime.ordinal raw * 24 + datetime.hour raw
                      = datetime.ordinal current * 24 + datetime.hour current))
      as [Hsame|Hdiff].
    + assert (Hq : datetime.minute current `div` g
                   <= datetime.minute raw `div` g).
      { apply Z.div_le_mono; lia. }
      generalize dependent (datetime.minute raw `mod` g).
      generalize dependent (datetime.minute raw `div` g).
      generalize dependent (datetime.minute current `div` g).
      intros. nia.
    + generalize dependent (datetime.minute raw `mod` g).
      generalize dependent (datetime.minute raw `div` g).
      generalize dependent (datetime.minute current `div` g).
      intros. lia.
Qed.

(** ** The loop and the relation [run_from] *)

Section loop.

Variable options : ScheduleOptions.
Variable dp : DemandProvider.
Variable hp : HeadwayPolicy.

Lemma run_from_det (route : string) (current : datetime.t)
    (l1 l2 : list datetime.t) :
  run_from options dp hp route current l1 →
  run_from options dp hp route current l2 → l1 = l2.
Proof.
  intros H1. revert l2.
  induction H1 as [cur Hc | cur next l Hc Hadv _ IH]; intros l2 H2;
    inversion H2; subst; try congruence.
  f_equal. apply IH. congruence.
Qed.

(** A run that returns has appended the departures of [run_from], and
    used less fuel than it was given. *)
Lemma while_loop_run (fuel : nat) (route : string) (current : datetime.t)
    (m m' : gmap string (list datetime.t)) (l0 : list datetime.t) :
  while_loop options dp hp fuel route current m = Some (Ok m') →
  m !! route = Some l0 →
  ∃ l, run_from options dp hp route current l ∧
       m' = <[route := l0 ++ l]> m ∧ (length l < fuel)%nat.
Proof.
  revert current m l0.
  induction fuel as [|fuel IH]; intros current m l0; simpl; [done|].
  destruct (time.le _ _) eqn:Hc.
  - intros Hrun Hm. unfold append_departure in Hrun. rewrite Hm in Hrun.
    destruct (advance options dp hp route current) as [next|] eqn:Hadv;
      [|done].
    apply (IH _ _ (l0 ++ [current])) in Hrun as (l & Hl & -> & Hlen);
      [|by rewrite lookup_insert_eq].
    exists (current :: l). split; [by eapply run_step|]. split.
    + by rewrite insert_insert_eq, <- app_assoc.
    + simpl. lia.
  - intros [= <-] Hm. exists []. split; [by apply run_stop|]. split.
    + by rewrite app_nil_r, insert_id.
    + simpl. lia.
Qed.

Lemma run_while_loop (route : string) (current : datetime.t)
    (l : list datetime.t) :
  run_from options dp hp route current l →
  ∀ (fuel : nat) (m : gmap string (list datetime.t)) (l0 : list datetime.t),
    m !! route = Some l0 → (length l < fuel)%nat →
    while_loop options dp hp fuel route current m
    = Some (Ok (<[route := l0 ++ l]> m)).
Proof.
  induction 1 as [cur Hc | cur next l Hc Hadv _ IH]; intros fuel m l0 Hm Hlen.
  - destruct fuel as [|fuel]; [simpl in Hlen; lia|]. simpl. rewrite Hc.
    by rewrite app_nil_r, insert_id.
  - destruct fuel as [|fuel]; [simpl in Hlen; lia|]. simpl. rewrite Hc.
    unfold append_departure. rewrite Hm, Hadv.
    rewrite (IH fuel _ (l0 ++ [cur])).
    + by rewrite insert_insert_eq, <- app_assoc.
    + by rewrite lookup_insert_eq.
    + simpl in Hlen. lia.
Qed.

(** More fuel does not change the answer of a run that ended. *)
Lemma while_loop_more_fuel (fuel fuel' : nat) (route : string)
    (current : datetime.t) (m : gmap string (list datetime.t))
    (r : result (gmap string (list datetime.t))) :
  while_loop options dp hp fuel route current m = Some r →
  (fuel <= fuel')%nat →
  while_loop options dp hp fuel' route current m = Some r.
Proof.
  revert fuel' current m.
  induction fuel as [|fuel IH]; intros fuel' current m; simpl; [done|].
  intros Hrun Hle. destruct fuel' as [|fuel']; [lia|]. simpl.
  destruct (time.le _ _); [|done].
  destruct (append_departure _ _ _) as [m1|]; [|done].
  destruct (advance _ _ _ _ _) as [next|]; [|done].
  apply IH; [done|lia].
Qed.

Lemma for_routes_more_fuel (fuel fuel' : nat) (routes : list string)
    (service_day : date.t) (m : gmap string (list datetime.t))
    (r : result (gmap string (list datetime.t))) :
  for_routes options dp hp fuel routes service_day m = Some r →
  (fuel <= fuel')%nat →
  for_routes options dp hp fuel' routes service_day m = Some r.
Proof.
  revert m. induction routes as [|route rest IH]; intros m; simpl; [done|].
  destruct (first_departure options service_day) as [first|]; [|done].
  destruct (while_loop options dp hp fuel route first m) as [r1|] eqn:Hrun;
    [|done].
  intros Hrest Hle.
  rewrite (while_loop_more_fuel _ _ _ _ _ _ Hrun Hle).
  destruct r1 as [m1|e]; [by apply IH | done].
Qed.

(** ** The loop over the routes *)

Lemma occurrences_cons (route r : string) (routes : list string) :
  occurrences route (r :: routes) =
  if decide (r = route) then S (occurrences route routes)
  else occurrences route routes.
Proof. unfold occurrences. rewrite filter_cons. by case_decide. Qed.

Lemma occurrences_zero (route : string) (routes : list string) :
  route ∉ routes → occurrences route routes = 0%nat.
Proof.
  induction routes as [|r rest IH]; [done|].
  rewrite not_elem_of_cons, occurrences_cons. intros [Hne Hrest].
  case_decide; [congruence | by apply IH].
Qed.

Lemma repeated_succ (k : nat) (l : list datetime.t) :
  repeated (S k) l = l ++ repeated k l.
Proof. reflexivity. Qed.

(** When the loop over the routes returns, every key of the map has
    received, once for each time the list names it, the departures of one
    run for that route; other keys are untouched. *)
Lemma for_routes_run (fuel : nat) (routes : list string)
    (service_day : date.t) (first : datetime.t)
    (m m' : gmap string (list datetime.t)) :
  first_departure options service_day = Ok first →
  for_routes options dp hp fuel routes service_day m = Some (Ok m') →
  (∀ route, route ∈ routes → is_Some (m !! route)) →
  ∀ route,
    (route ∉ routes → m' !! route = m !! route) ∧
    (route ∈ routes →
     ∃ l0 l, m !! route = Some l0 ∧
       run_from options dp hp route first l ∧ (length l < fuel)%nat ∧
       m' !! route = Some (l0 ++ repeated (occurrences route routes) l)).
Proof.
  intros Hfirst. revert m.
  induction routes as [|r rest IH]; intros m; simpl.
  - intros [= <-] _ route. split; [done | by rewrite elem_of_nil].
  - rewrite Hfirst.
    destruct (while_loop options dp hp fuel r first m) as [[m1|]|] eqn:Hrun;
      [|done..].
    intros Hrest Hkeys route.
    destruct (Hkeys r) as [lr Hlr]; [by left|].
    destruct (while_loop_run _ _ _ _ _ _ Hrun Hlr) as (l & Hl & -> & Hlen).
    assert (Hkeys1 : ∀ route, route ∈ rest →
              is_Some (<[r := lr ++ l]> m !! route)).
    { intros r' Hr'. destruct (decide (r = r')) as [->|Hne].
      - rewrite lookup_insert_eq. by eexists.
      - rewrite lookup_insert_ne by done. apply Hkeys. by right. }
    destruct (IH _ Hrest Hkeys1 route) as [IHout IHin].
    rewrite not_elem_of_cons, elem_of_cons, occurrences_cons. split.
    + intros [Hne Hnotin]. rewrite IHout by done.
      by rewrite lookup_insert_ne.
    + intros Hin. destruct (decide (r = route)) as [->|Hne].
      * exists lr, l. split; [done|]. split; [done|]. split; [done|].
        rewrite repeated_succ, app_assoc.
        destruct (decide (route ∈ rest)) as [Hrest_in|Hrest_out].
        -- destruct (IHin Hrest_in) as (l0' & l' & Hl0' & Hl' & _ & ->).
           rewrite lookup_insert_eq in Hl0'. injection Hl0' as <-.
           by rewrite (run_from_det _ _ _ _ Hl' Hl).
        -- rewrite IHout by done. rewrite lookup_insert_eq.
           by rewrite occurrences_zero, app_nil_r.
      * destruct Hin as [->|Hin]; [done|].
        destruct (IHin Hin) as (l0' & l' & Hl0' & Hl' & Hlen' & ->).
        rewrite lookup_insert_ne in Hl0' by done. by exists l0', l'.
Qed.

End loop.

Lemma empty_schedules_lookup (routes : list string) (route : string) :
  empty_schedules routes !! route =
  if decide (route ∈ routes) then Some [] else None.
Proof.
  unfold empty_schedules.
  assert (Hgen : ∀ m : gmap string (list datetime.t),
            foldl (λ m r, <[r := []]> m) m routes !! route =
            if decide (route ∈ routes) then Some [] else m !! route).
  { induction routes as [|r rest IH]; intros m; simpl.
    - destruct (decide (route ∈ [])) as [Hin|_];
        [by apply elem_of_nil in Hin | done].
    - rewrite IH. destruct (decide (route = r)) as [->|Hne].
      + rewrite lookup_insert_eq.
        rewrite (decide_True (P := r ∈ r :: rest)) by by left.
        by case_decide.
      + rewrite lookup_insert_ne by done.
        destruct (decide (route ∈ rest)) as [Hin|Hout].
        * by rewrite decide_True by by right.
        * rewrite decide_False; [done|]. rewrite elem_of_cons. tauto. }
  rewrite Hgen. by case_decide.
Qed.

(** ** The generator *)

Lemma first_departure_spec (options : ScheduleOptions) (service_day : date.t) :
  date.valid service_day → time.valid (start (service_window options)) →
  first_departure options service_day
    = Ok (datetime.combine service_day (rounded_start options)) ∧
  datetime.valid (datetime.combine service_day (rounded_start options)) ∧
  aligned (round_to_minutes options)
    (datetime.combine service_day (rounded_start options)).
Proof.
  intros Hday Hstart. unfold first_departure, rounded_start, aligned.
  pose proof (combine_valid _ _ Hday Hstart) as Hv.
  destruct (Z.eqb_spec (granularity (round_to_minutes options)) 0) as [Hg|Hg].
  - split; [by apply round_dt_off|]. split; [done | by left].
  - pose proof (granularity_on _ Hg) as Hg1.
    set (s := start (service_window options)) in *.
    set (g := granularity (round_to_minutes options)) in *.
    change (datetime.combine service_day
              (time.mk (time.hour s) (time.minute s - time.minute s `mod` g)
                 0 0))
      with (floor_minutes (datetime.combine service_day s) g).
    rewrite (granularity_some _ Hg). fold g.
    split; [by apply round_dt_on|].
    split; [by apply floor_minutes_valid|]. right.
    split; [by apply floor_minutes_minute|done].
Qed.

(** What a returned schedule holds: nothing for a name that is not in the
    list, and for a name of the list one run of the loop, repeated as many
    times as the list names it. *)
Lemma generate_run (fuel : nat) (routes : list string) (service_day : date.t)
    (options : ScheduleOptions) (demand_provider : option DemandProvider)
    (headway_policy : option HeadwayPolicy)
    (schedule : gmap string (list datetime.t)) :
  generate_daily_schedule fuel routes service_day options demand_provider
    headway_policy = Some (Ok schedule) →
  time.ge (start (service_window options)) (end_ (service_window options))
    = false ∧
  ∀ route,
    (route ∉ routes → schedule !! route = None) ∧
    (route ∈ routes →
     ∃ first l,
       first_departure options service_day = Ok first ∧
       run_from options (provider_or_default demand_provider)
         (policy_or_default headway_policy) route first l ∧
       (length l < fuel)%nat ∧
       schedule !! route = Some (repeated (occurrences route routes) l)).
Proof.
  unfold generate_daily_schedule. destruct (time.ge _ _); [done|].
  intros Hgen. split; [done|]. intros route.
  destruct routes as [|r rest] eqn:Hroutes.
  { simpl in Hgen. injection Hgen as <-. split; [done|].
    by rewrite elem_of_nil. }
  rewrite <- Hroutes in *.
  assert (∃ first, first_departure options service_day = Ok first)
    as [first Hfirst].
  { rewrite Hroutes in Hgen. simpl in Hgen.
    destruct (first_departure options service_day); [by eexists | done]. }
  pose proof (for_routes_run _ _ _ _ _ _ _ _ _ Hfirst Hgen) as Hrun.
  destruct (Hrun) with (route := route) as [Hout Hin].
  { intros r' Hr'. rewrite empty_schedules_lookup, decide_True by done.
    by eexists. }
  split.
  - intros Hnot. rewrite Hout by done.
    by rewrite empty_schedules_lookup, decide_False.
  - intros Hr. destruct (Hin Hr) as (l0 & l & Hl0 & Hl & Hlen & ->).
    rewrite empty_schedules_lookup, decide_True in Hl0 by done.
    injection Hl0 as <-. by exists first, l.
Qed.

(** ** Consecutive departures *)

Section run_facts.

Variable options : ScheduleOptions.
Variable dp : DemandProvider.
Variable hp : HeadwayPolicy.
Variable route : string.

Lemma advance_valid (current next : datetime.t) :
  datetime.valid current →
  advance options dp hp route current = Ok next → datetime.valid next.
Proof.
  intros Hcur Hadv.
  destruct (advance_spec _ _ _ _ _ _ Hcur Hadv)
    as (h & raw & _ & _ & Hraw & _ & _ & ->).
  destruct (Z.eqb_spec (granularity (round_to_minutes options)) 0) as [Hg|Hg];
    [done|].
  apply floor_minutes_valid; [done|].
  unfold granularity in *. destruct (round_to_minutes options) as [g|];
    [|done]. destruct (Z.leb_spec g 1); [done|lia].
Qed.

Lemma run_from_valid (current : datetime.t) (l : list datetime.t) :
  run_from options dp hp route current l →
  datetime.valid current → Forall datetime.valid l.
Proof.
  induction 1 as [cur Hc | cur next l Hc Hadv _ IH]; intros Hcur;
    [by constructor|].
  constructor; [done|]. apply IH. by eapply advance_valid.
Qed.

(** Each departure but the first is what one iteration makes of the
    departure before it. *)
Lemma run_from_adjacent (current : datetime.t) (l : list datetime.t)
    (i : nat) (a b : datetime.t) :
  run_from options dp hp route current l →
  l !! i = Some a → l !! S i = Some b →
  advance options dp hp route a = Ok b.
Proof.
  intros Hrun. revert i.
  induction Hrun as [cur Hc | cur next l Hc Hadv Hrun IH]; intros i;
    [done|].
  destruct i as [|i]; simpl.
  - intros [= <-] Hb. inversion Hrun; subst; simpl in Hb; [done|].
    by injection Hb as <-.
  - apply IH.
Qed.

End run_facts.

(** With a fixed headway the providers play no part in an iteration. *)
Lemma fixed_headway_advance (options : ScheduleOptions) (H : Z)
    (dp dp' : DemandProvider) (hp hp' : HeadwayPolicy) (route : string)
    (current : datetime.t) :
  fixed_headway_min options = Some H →
  advance options dp hp route current = advance options dp' hp' route current.
Proof. intros Hfix. unfold advance, headway_at. by rewrite Hfix. Qed.

Lemma fixed_headway_while (options : ScheduleOptions) (H : Z)
    (dp dp' : DemandProvider) (hp hp' : HeadwayPolicy) (fuel : nat)
    (route : string) (current : datetime.t)
    (m : gmap string (list datetime.t)) :
  fixed_headway_min options = Some H →
  while_loop options dp hp fuel route current m
  = while_loop options dp' hp' fuel route current m.
Proof.
  intros Hfix. revert current m.
  induction fuel as [|fuel IH]; intros current m; simpl; [done|].
  rewrite (fixed_headway_advance options H dp dp' hp hp') by done.
  destruct (time.le _ _); [|done].
  destruct (append_departure _ _ _); [|done].
  destruct (advance _ _ _ _ _); [|done]. apply IH.
Qed.

Lemma fixed_headway_generate (options : ScheduleOptions) (H : Z)
    (fuel : nat) (routes : list string) (service_day : date.t)
    (demand_provider demand_provider' : option DemandProvider)
    (headway_policy headway_policy' : option HeadwayPolicy) :
  fixed_headway_min options = Some H →
  generate_daily_schedule fuel routes service_day options demand_provider
    headway_policy
  = generate_daily_schedule fuel routes service_day options demand_provider'
      headway_policy'.
Proof.
  intros Hfix. unfold generate_daily_schedule.
  destruct (time.ge _ _); [done|].
  generalize (empty_schedules routes) as m.
  induction routes as [|r rest IH]; intros m; simpl; [done|].
  destruct (first_departure options service_day) as [first|]; [|done].
  rewrite (fixed_headway_while options H _
             (provider_or_default demand_provider') _
             (policy_or_default headway_policy')) by done.
  destruct (while_loop _ _ _ _ _ _ _) as [[m1|]|]; [apply IH|done..].
Qed.

(** C5, for a route that the list names once: with
    [fixed_headway_min = H], for two consecutive departures [a], [b] of
    the route, [a] plus [H] minutes is a timestamp [raw] exactly [H] minutes
    after [a], and [b] is [raw] rounded; without rounding [b] is exactly [H]
    minutes after [a].  The schedule is the same whatever the estimator
    and the policy are, those that raise included: they are not
    consulted. *)
Theorem fixed_headway_spacing (fuel : nat) (routes : list string)
    (service_day : date.t) (options : ScheduleOptions) (H : Z)
    (demand_provider : option DemandProvider)
    (headway_policy : option HeadwayPolicy)
    (schedule : gmap string (list datetime.t)) (route : string)
    (l : list datetime.t) (i : nat) (a b : datetime.t) :
  date.valid service_day →
  time.valid (start (service_window options)) →
  fixed_headway_min options = Some H →
  generate_daily_schedule fuel routes service_day options demand_provider
    headway_policy = Some (Ok schedule) →
  occurrences route routes = 1%nat →
  schedule !! route = Some l →
  l !! i = Some a → l !! S i = Some b →
  (∃ raw,
     datetime.add a (H * 60000000) = Ok raw ∧
     datetime.to_us raw - datetime.to_us a = H * 60000000 ∧
     _round_dt raw (round_to_minutes options) = Ok b) ∧
  (granularity (round_to_minutes options) = 0 →
   datetime.to_us b - datetime.to_us a = H * 60000000) ∧
  (∀ demand_provider' headway_policy',
     generate_daily_schedule fuel routes service_day options demand_provider'
       headway_policy' = Some (Ok schedule)).
Proof.
  intros Hday Hstart Hfix Hgen Hocc Hl Ha Hb.
  destruct (generate_run _ _ _ _ _ _ _ Hgen) as [_ Hrun].
  destruct (Hrun route) as [Hout Hin].
  destruct (decide (route ∈ routes)) as [Hr|Hr];
    [|rewrite Hout in Hl by done; done].
  destruct (Hin Hr) as (first & l' & Hfirst & Hl' & _ & Hsched).
  rewrite Hocc, Hl in Hsched. unfold repeated in Hsched. simpl in Hsched.
  rewrite app_nil_r in Hsched. injection Hsched as ->.
  destruct (first_departure_spec options service_day Hday Hstart)
    as (Hfirst' & Hvalid & _).
  rewrite Hfirst in Hfirst'. injection Hfirst' as ->.
  pose proof (run_from_valid _ _ _ _ _ _ Hl' Hvalid) as Hall.
  pose proof (run_from_adjacent _ _ _ _ _ _ _ _ _ Hl' Ha Hb) as Hadv.
  assert (Hva : datetime.valid a).
  { rewrite Forall_lookup in Hall. by eapply Hall. }
  destruct (advance_spec _ _ _ _ _ _ Hva Hadv)
    as (h & raw & Hh & Hadd & Hraw & Hus & Hround & Hnext).
  unfold headway_at in Hh. rewrite Hfix in Hh. injection Hh as <-.
  split; [|split].
  - exists raw. split; [done|]. split; [lia|done].
  - intros Hg. rewrite Hg in Hnext. simpl in Hnext. subst b. lia.
  - intros dp' hp'.
    by rewrite (fixed_headway_generate options H fuel routes service_day
                  dp' demand_provider hp' headway_policy).
Qed.

Lemma fixed_headway_spacing_witness :
  datetime.to_us (datetime.mk demo_day 6 30 0 0)
  - datetime.to_us (datetime.mk demo_day 6 0 0 0) = 30 * 60000000.
Proof.
  destruct (fixed_headway_spacing 10 ["Ruta_Centro"] demo_day
              demo_fixed_options 30 None None demo_fixed "Ruta_Centro"
              [datetime.mk demo_day 6 0 0 0; datetime.mk demo_day 6 30 0 0;
               datetime.mk demo_day 7 0 0 0]
              0%nat (datetime.mk demo_day 6 0 0 0)
              (datetime.mk demo_day 6 30 0 0)) as (_ & Hexact & _).
  - unfold date.valid, date.min_ordinal, date.max_ordinal, demo_day. lia.
  - unfold time.valid. simpl. lia.
  - reflexivity.
  - vm_compute. reflexivity.
  - vm_compute. reflexivity.
  - vm_compute. reflexivity.
  - reflexivity.
  - reflexivity.
  - apply Hexact. reflexivity.
Defined.

(** The list names the route twice: the departure after the last one of
    the first run is the first one of the second run, an hour earlier and
    not thirty minutes later. *)
Lemma fixed_headway_spacing_fails_on_duplicates :
  ∃ l a b,
    departures_of
      (generate_daily_schedule 10 ["Ruta_Centro"; "Ruta_Centro"] demo_day
         demo_fixed_options None None) "Ruta_Centro" = Some l ∧
    l !! 2%nat = Some a ∧ l !! 3%nat = Some b ∧
    datetime.to_us b - datetime.to_us a = - 60 * 60000000 ∧
    datetime.to_us b - datetime.to_us a ≠ 30 * 60000000.
Proof.
  eexists _, _, _. split; [vm_compute; reflexivity|].
  split; [reflexivity|]. split; [reflexivity|].
  split; [reflexivity | by vm_compute].
Qed.

(** ** Order of the departures *)

Lemma time_combine (d : date.t) (x : time.t) :
  datetime.time (datetime.combine d x) = x.
Proof. by destruct x. Qed.

Section increasing.

Variable options : ScheduleOptions.
Variable dp : DemandProvider.
Variable hp : HeadwayPolicy.
Variable route : string.

Hypothesis end_valid : time.valid (end_ (service_window options)).

(** A run that ends never finds the clock where it was. *)
Lemma run_from_moves (current next : datetime.t) (l : list datetime.t) :
  time.le (datetime.time current) (end_ (service_window options)) = true →
  advance options dp hp route current = Ok next →
  run_from options dp hp route next l → next ≠ current.
Proof.
  intros Hc Hadv Hrun ->.
  pose proof (run_step _ _ _ _ _ _ _ Hc Hadv Hrun) as Hrun'.
  pose proof (run_from_det _ _ _ _ _ _ _ Hrun Hrun') as Heq.
  apply (f_equal length) in Heq. simpl in Heq. lia.
Qed.

(** The headways of a run are those computed at its departures.  When
    each is a minute or more, and short enough for a departure of the
    window to be followed by a timestamp of the same day, the run stays
    on its day and moves forward. *)
Lemma run_from_same_day (current : datetime.t) (l : list datetime.t) :
  run_from options dp hp route current l →
  (∀ (d : datetime.t) (h : Z),
     d ∈ l → headway_at options dp hp route d = Ok h →
     1 <= h ∧
     time.to_us (end_ (service_window options)) + h * 60000000
       < timedelta.us_per_day) →
  datetime.valid current → aligned (round_to_minutes options) current →
  Forall (λ d, datetime.valid d ∧
               datetime.ordinal d = datetime.ordinal current ∧
               datetime.to_us current <= datetime.to_us d ∧
               time.le (datetime.time d) (end_ (service_window options))
                 = true) l ∧
  (∀ (i j : nat) (a b : datetime.t),
     (i < j)%nat → l !! i = Some a → l !! j = Some b →
     datetime.to_us a < datetime.to_us b).
Proof.
  induction 1 as [cur Hc | cur next l Hc Hadv Hrun IH]; intros Hhw Hcur Hal.
  { split; [by constructor | by intros i j a b _ Hi]. }
  destruct (advance_spec _ _ _ _ _ _ Hcur Hadv)
    as (h & raw & Hh & _ & _ & _ & _ & _).
  destruct (Hhw cur h) as [Hlo Hhi]; [by left | done |].
  destruct (advance_monotone _ _ _ _ _ _ _ Hcur Hal Hh Hlo Hadv)
    as (Hnext & Halnext & Hstep).
  destruct (IH (λ d h' Hd, Hhw d h' (list_elem_of_further _ _ _ Hd))
              Hnext Halnext) as [Hall Hsorted].
  assert (Hstrict : datetime.to_us cur < datetime.to_us next).
  { destruct (decide (datetime.to_us next = datetime.to_us cur)) as [Heq|];
      [|lia].
    apply to_us_inj in Heq; [|done..].
    by destruct (run_from_moves _ _ _ Hc Hadv Hrun). }
  assert (Hord : datetime.ordinal next = datetime.ordinal cur).
  { apply time_le_to_us in Hc;
      [|by apply datetime_time_valid | done].
    pose proof (time_to_us_range _ (datetime_time_valid _ Hcur)).
    pose proof (time_to_us_range _ (datetime_time_valid _ Hnext)).
    rewrite (to_us_split cur), (to_us_split next) in Hstep.
    unfold timedelta.us_per_day in *. lia. }
  assert (Htail : Forall (λ d, datetime.to_us cur < datetime.to_us d) l).
  { eapply Forall_impl; [exact Hall|]. simpl. intros d (_ & _ & Hle & _).
    lia. }
  split.
  - constructor; [done|].
    eapply Forall_impl; [exact Hall|]. simpl.
    intros d (Hd & Hdo & Hle & Hin). split; [done|]. split; [congruence|].
    split; [lia | done].
  - intros i j a b Hij Hi Hj.
    destruct j as [|j]; [lia|]. simpl in Hj.
    destruct i as [|i]; simpl in Hi.
    + injection Hi as <-. rewrite Forall_lookup in Htail. by eapply Htail.
    + eapply (Hsorted i j); [lia|done..].
Qed.

End increasing.

(** C2, for a route that the list names once and headways that keep the
    clock moving within the day: every headway the loop computed for the
    route, that is the headway at each of its departures, is at least one
    minute, and short enough for the end of the window plus the headway
    to be on the same day still.  Then the times of day of the route's
    departures strictly increase, and each lies between the rounded start
    of the window and its end, both included; without rounding the rounded
    start is the start.  Headways the estimator and the policy would give
    at other datetimes play no part. *)
Theorem departures_increase_within_window (fuel : nat) (routes : list string)
    (service_day : date.t) (options : ScheduleOptions)
    (demand_provider : option DemandProvider)
    (headway_policy : option HeadwayPolicy)
    (schedule : gmap string (list datetime.t)) (route : string)
    (l : list datetime.t) :
  date.valid service_day →
  time.valid (start (service_window options)) →
  time.valid (end_ (service_window options)) →
  generate_daily_schedule fuel routes service_day options demand_provider
    headway_policy = Some (Ok schedule) →
  occurrences route routes = 1%nat →
  schedule !! route = Some l →
  (∀ (d : datetime.t) (h : Z),
     d ∈ l →
     headway_at options (provider_or_default demand_provider)
       (policy_or_default headway_policy) route d = Ok h →
     1 <= h ∧
     time.to_us (end_ (service_window options)) + h * 60000000
       < timedelta.us_per_day) →
  increasing_time_of_day l ∧
  Forall (λ d, contains {| start := rounded_start options;
                           end_ := end_ (service_window options) |} d = true)
    l ∧
  (granularity (round_to_minutes options) = 0 →
   rounded_start options = start (service_window options)).
Proof.
  intros Hday Hstart Hend Hgen Hocc Hl Hhw.
  destruct (generate_run _ _ _ _ _ _ _ Hgen) as [_ Hrun].
  destruct (Hrun route) as [Hout Hin].
  destruct (decide (route ∈ routes)) as [Hr|Hr];
    [|rewrite Hout in Hl by done; done].
  destruct (Hin Hr) as (first & l' & Hfirst & Hl' & _ & Hsched).
  rewrite Hocc, Hl in Hsched. unfold repeated in Hsched. simpl in Hsched.
  rewrite app_nil_r in Hsched. injection Hsched as ->.
  destruct (first_departure_spec options service_day Hday Hstart)
    as (Hfirst' & Hvalid & Hal).
  rewrite Hfirst in Hfirst'. injection Hfirst' as ->.
  destruct (run_from_same_day _ _ _ _ Hend _ _ Hl' Hhw Hvalid Hal)
    as [Hall Hsorted].
  split; [|split].
  - intros i j a b Hij Hi Hj.
    rewrite Forall_lookup in Hall.
    destruct (Hall _ _ Hi) as (Ha & Hao & _ & _).
    destruct (Hall _ _ Hj) as (Hb & Hbo & _ & _).
    rewrite time_cmp_to_us by by apply datetime_time_valid.
    apply Z.compare_lt_iff.
    pose proof (Hsorted _ _ _ _ Hij Hi Hj) as Hlt.
    rewrite (to_us_split a), (to_us_split b), Hao, Hbo in Hlt. lia.
  - eapply Forall_impl; [exact Hall|]. simpl.
    intros d (Hd & Hdo & Hle & Hin'). unfold contains. simpl.
    rewrite Hin', andb_true_r.
    pose proof (datetime_time_valid _ Hvalid) as Htv.
    rewrite time_combine in Htv.
    apply time_le_to_us; [done | by apply datetime_time_valid |].
    rewrite (to_us_split d), to_us_split, Hdo, time_combine in Hle.
    simpl in Hle. lia.
  - intros Hg. unfold rounded_start. by rewrite Hg.
Qed.

(** The default policy keeps every headway between 6 and 60 minutes. *)
Lemma default_headway_at (options : ScheduleOptions) (route : string)
    (current : datetime.t) (h : Z) :
  fixed_headway_min options = None →
  headway_at options (provider_or_default None) (policy_or_default None)
    route current = Ok h →
  6 <= h <= 60.
Proof.
  intros Hfix. unfold headway_at. rewrite Hfix. simpl. intros Hh.
  destruct (headway_is_clamped _ _ _ _ _ Hh) as [hw ->].
  apply (clamp_bounds (ThresholdHeadwayPolicy.new None None None)).
  simpl. lia.
Qed.

(** The default estimator and policy with the window 20:00-23:35: the
    headway at each departure is 20 minutes, though the policy would give
    30 at 03:00, which added to the end of the window is past midnight. *)
Lemma departures_increase_within_window_witness :
  increasing_time_of_day demo_evening_departures ∧
  Forall (λ d, contains {| start := rounded_start demo_evening_options;
                           end_ := end_ (service_window demo_evening_options)
                        |} d = true)
    demo_evening_departures ∧
  (granularity (round_to_minutes demo_evening_options) = 0 →
   rounded_start demo_evening_options
   = start (service_window demo_evening_options)).
Proof.
  apply (departures_increase_within_window 20 ["Ruta_Centro"] demo_day
           demo_evening_options None None
           (schedule_of
              (generate_daily_schedule 20 ["Ruta_Centro"] demo_day
                 demo_evening_options None None)) "Ruta_Centro").
  - unfold date.valid, date.min_ordinal, date.max_ordinal, demo_day. lia.
  - unfold time.valid. simpl. lia.
  - unfold time.valid. simpl. lia.
  - vm_compute. reflexivity.
  - reflexivity.
  - vm_compute. reflexivity.
  - intros d h Hd Hh.
    assert (Hcases : Forall (λ d, headway_at demo_evening_options
                               (provider_or_default None)
                               (policy_or_default None) "Ruta_Centro" d
                             = Ok 20) demo_evening_departures)
      by (repeat constructor).
    rewrite Forall_forall in Hcases. rewrite (Hcases d Hd) in Hh.
    injection Hh as <-. unfold timedelta.us_per_day, time.to_us. simpl. lia.
Defined.

(** Four calls that return a schedule which leaves the window or is not
    increasing: a start that is rounded to a time before the window, a
    headway that carries the clock past midnight, a negative headway, and
    a route named twice. *)
Lemma departures_can_leave_window_and_order :
  (∃ l d,
     departures_of
       (generate_daily_schedule 10 ["Ruta_Centro"] demo_day
          (ScheduleOptions_new
             {| start := time.mk 7 3 0 0; end_ := time.mk 7 30 0 0 |})
          None None) "Ruta_Centro" = Some l ∧
     l !! 0%nat = Some d ∧
     contains {| start := time.mk 7 3 0 0; end_ := time.mk 7 30 0 0 |} d
     = false) ∧
  (∃ l a b,
     departures_of
       (generate_daily_schedule 100 ["Ruta_Centro"] demo_day
          {| service_window :=
               {| start := time.mk 10 0 0 0; end_ := time.mk 12 0 0 0 |};
             fixed_headway_min := Some 1430; round_to_minutes := None |}
          None None) "Ruta_Centro" = Some l ∧
     l !! 0%nat = Some a ∧ l !! 1%nat = Some b ∧
     time.cmp (datetime.time a) (datetime.time b) = Gt ∧
     contains {| start := time.mk 10 0 0 0; end_ := time.mk 12 0 0 0 |} b
     = false) ∧
  (∃ l a b,
     departures_of
       (generate_daily_schedule 10 ["Ruta_Centro"] demo_day
          {| service_window :=
               {| start := time.mk 6 0 0 0; end_ := time.mk 22 0 0 0 |};
             fixed_headway_min := Some (-60); round_to_minutes := None |}
          None None) "Ruta_Centro" = Some l ∧
     l !! 0%nat = Some a ∧ l !! 1%nat = Some b ∧
     time.cmp (datetime.time a) (datetime.time b) = Gt) ∧
  (∃ l a b,
     departures_of
       (generate_daily_schedule 10 ["Ruta_Centro"; "Ruta_Centro"] demo_day
          demo_options None None) "Ruta_Centro" = Some l ∧
     l !! 6%nat = Some a ∧ l !! 7%nat = Some b ∧
     time.cmp (datetime.time a) (datetime.time b) = Gt).
Proof.
  split; [|split; [|split]].
  - eexists _, _. split; [vm_compute; reflexivity|]. split; reflexivity.
  - eexists _, _, _. split; [vm_compute; reflexivity|].
    repeat split; reflexivity.
  - eexists _, _, _. split; [vm_compute; reflexivity|].
    repeat split; reflexivity.
  - eexists _, _, _. split; [vm_compute; reflexivity|].
    repeat split; reflexivity.
Qed.
(** ** Termination *)

Section termination.

Variable options : ScheduleOptions.
Variable dp : DemandProvider.
Variable hp : HeadwayPolicy.
Variable route : string.

Lemma reaches_valid (current x : datetime.t) :
  reaches options dp hp route current x →
  datetime.valid current → datetime.valid x.
Proof.
  induction 1 as [|cur next x Hc Hadv _ IH]; [done|].
  intros Hcur. apply IH. by eapply advance_valid.
Qed.

(** Each iteration brings the clock a minute closer to the last instant a
    [datetime] can hold, so a run with one unit of fuel for each of the
    minutes left, and one more, ends.  Only the headways the run computes
    matter: those at the datetimes it visits inside the window. *)
Lemma while_loop_ends (n : nat) (current : datetime.t)
    (m : gmap string (list datetime.t)) :
  datetime.valid current →
  aligned (round_to_minutes options) current →
  (∀ (x : datetime.t) (h : Z),
     reaches options dp hp route current x → datetime.valid x →
     time.le (datetime.time x) (end_ (service_window options)) = true →
     headway_at options dp hp route x = Ok h →
     Z.max 1 (granularity (round_to_minutes options)) <= h) →
  us_max - datetime.to_us current <= Z.of_nat n * 60000000 →
  ∃ r, while_loop options dp hp (S n) route current m = Some r.
Proof.
  revert current m.
  induction n as [|n IH]; intros current m Hcur Hal Hhw Hleft.
  { pose proof (valid_to_us_range _ Hcur). lia. }
  cbn [while_loop]. destruct (time.le _ _) eqn:Hc; [|by eexists].
  destruct (append_departure m route current) as [m1|]; [|by eexists].
  destruct (advance options dp hp route current) as [next|] eqn:Hadv;
    [|by eexists].
  destruct (advance_spec _ _ _ _ _ _ Hcur Hadv)
    as (h & raw & Hh & _ & _ & _ & _ & _).
  pose proof (Hhw _ _ (reaches_here _ _ _ _ _) Hcur Hc Hh) as Hlo.
  destruct (advance_progress _ _ _ _ _ _ _ Hcur Hal Hh Hlo Hadv)
    as (Hnext & Halnext & Hstep).
  apply IH; [done..| |lia].
  intros x h' Hx. apply Hhw. by eapply reaches_later.
Qed.

End termination.

(** Fuel that is enough for any run: the minutes between the first and
    the last instant of a [datetime], and two more. *)
Lemma enough_fuel (current : datetime.t) :
  datetime.valid current →
  us_max - datetime.to_us current
    <= Z.of_nat (Z.to_nat ((us_max - us_min) `div` 60000000 + 1)) * 60000000.
Proof.
  intros Hcur. pose proof (valid_to_us_range _ Hcur) as Hr.
  rewrite Z2Nat.id by (unfold us_max, us_min; by vm_compute).
  assert (us_max - datetime.to_us current <= us_max - us_min) by lia.
  revert H. generalize (us_max - us_min). intros z Hz.
  Z.div_mod_to_equations. lia.
Qed.

(** C1, for headways that make progress: when every headway the loop
    computes (at a datetime it visits inside the window, for a route of
    the list) is at least one minute and, with rounding on, at least the
    granularity, [generate_daily_schedule] ends for every list of routes:
    from some amount of fuel on it gives one and the same outcome, a
    schedule or an exception (the [OverflowError] of a clock that runs
    past 9999-12-31 when the window never closes).  Headways the estimator
    and the policy would give at datetimes the loop does not visit play no
    part. *)
Theorem generate_terminates (routes : list string) (service_day : date.t)
    (options : ScheduleOptions) (demand_provider : option DemandProvider)
    (headway_policy : option HeadwayPolicy) :
  date.valid service_day →
  time.valid (start (service_window options)) →
  (∀ (route : string) (x : datetime.t) (h : Z),
     route ∈ routes →
     reaches options (provider_or_default demand_provider)
       (policy_or_default headway_policy) route
       (datetime.combine service_day (rounded_start options)) x →
     datetime.valid x →
     time.le (datetime.time x) (end_ (service_window options)) = true →
     headway_at options (provider_or_default demand_provider)
       (policy_or_default headway_policy) route x = Ok h →
     Z.max 1 (granularity (round_to_minutes options)) <= h) →
  ∃ fuel outcome, ∀ fuel', (fuel <= fuel')%nat →
    generate_daily_schedule fuel' routes service_day options demand_provider
      headway_policy = Some outcome.
Proof.
  intros Hday Hstart Hhw. unfold generate_daily_schedule.
  destruct (time.ge _ _); [by exists 0%nat, (Raise ValueError)|].
  destruct (first_departure_spec options service_day Hday Hstart)
    as (Hfirst & Hvalid & Hal).
  pose proof (enough_fuel _ Hvalid) as Hfuel. revert Hfuel.
  generalize (Z.to_nat ((us_max - us_min) `div` 60000000 + 1)).
  intros n Hfuel.
  assert (Hends : ∀ m, ∃ outcome,
            for_routes options (provider_or_default demand_provider)
              (policy_or_default headway_policy) (S n) routes service_day m
            = Some outcome).
  { induction routes as [|r rest IH]; intros m; cbn [for_routes];
      [by eexists|].
    rewrite Hfirst.
    destruct (while_loop_ends options (provider_or_default demand_provider)
                (policy_or_default headway_policy) r) with
      (n := n) (current := datetime.combine service_day
                              (rounded_start options)) (m := m)
      as [r1 Hr1]; [done|done| |done|].
    { intros x h. apply Hhw. by left. }
    rewrite Hr1. destruct r1 as [m1|e]; [|by eexists].
    apply IH. intros route x h Hin. apply Hhw. by right. }
  destruct (Hends (empty_schedules routes)) as [outcome Hout].
  exists (S n), outcome. intros fuel' Hle.
  by eapply for_routes_more_fuel.
Qed.

(** Walks through the datetimes a run visits from a concrete start:
    [finish] closes the goal at each of them. *)
Ltac each_visit Hr finish :=
  let rec go H :=
    let Hc' := fresh "Hc" in
    let Hadv := fresh "Hadv" in
    let Hr' := fresh "Hr" in
    inversion H as [? | ? ? ? Hc' Hadv Hr']; subst; clear H;
    [ finish
    | vm_compute in Hc';
      first [ discriminate Hc'
            | vm_compute in Hadv; injection Hadv as <-; clear Hc'; go Hr' ] ]
  in go Hr.

(** The default estimator and policy with rounding to ten minutes and the
    window 09:00-12:00: the run uses the headways 15 and 10 only, though
    the policy would give 8 at 07:00. *)
Lemma generate_terminates_witness :
  ∃ fuel outcome, ∀ fuel', (fuel <= fuel')%nat →
    generate_daily_schedule fuel'
      ["Ruta_Centro"; "Ruta_Estudiantil"; "Ruta_Norte"] demo_day
      {| service_window :=
           {| start := time.mk 9 0 0 0; end_ := time.mk 12 0 0 0 |};
         fixed_headway_min := None; round_to_minutes := Some 10 |}
      None None = Some outcome.
Proof.
  apply generate_terminates.
  - unfold date.valid, date.min_ordinal, date.max_ordinal, demo_day. lia.
  - unfold time.valid. simpl. lia.
  - intros route x h _ Hr _ Hin Hh.
    change (datetime.combine _ _) with (datetime.mk demo_day 9 0 0 0) in Hr.
    each_visit Hr
      ltac:(vm_compute in Hin;
            first [ discriminate Hin
                  | vm_compute in Hh; injection Hh as <-; by vm_compute ]).
Defined.

(** A run whose iteration leaves the clock where it was never ends. *)
Lemma while_loop_stuck (options : ScheduleOptions) (dp : DemandProvider)
    (hp : HeadwayPolicy) (route : string) (current : datetime.t) :
  time.le (datetime.time current) (end_ (service_window options)) = true →
  advance options dp hp route current = Ok current →
  ∀ (fuel : nat) (m : gmap string (list datetime.t)) (l0 : list datetime.t),
    m !! route = Some l0 →
    while_loop options dp hp fuel route current m = None.
Proof.
  intros Hc Hadv. induction fuel as [|fuel IH]; intros m l0 Hm; [done|].
  simpl. rewrite Hc. unfold append_departure. rewrite Hm, Hadv.
  apply (IH _ (l0 ++ [current])). by rewrite lookup_insert_eq.
Qed.

(** Two calls with a valid window that never end: the default estimator
    and policy with rounding to ten minutes (07:00 plus the headway of 8
    minutes is rounded back to 07:00), and a custom policy whose headway
    is zero. *)
Lemma generate_can_run_forever :
  (¬ ∃ fuel outcome,
       generate_daily_schedule fuel ["Ruta_Centro"] demo_day
         (scenario_b_options (Some 10)) None None = Some outcome) ∧
  (¬ ∃ fuel outcome,
       generate_daily_schedule fuel ["Ruta_Centro"] demo_day
         (scenario_b_options None) None (Some zero_headway_policy)
       = Some outcome).
Proof.
  split; intros (fuel & outcome & Hgen);
    unfold generate_daily_schedule in Hgen;
    change (time.ge _ _) with false in Hgen; cbn [for_routes] in Hgen;
    change (first_departure _ _) with (Ok (datetime.mk demo_day 7 0 0 0))
      in Hgen; cbv beta iota in Hgen.
  - rewrite (while_loop_stuck (scenario_b_options (Some 10))
               (provider_or_default None) (policy_or_default None)
               "Ruta_Centro" (datetime.mk demo_day 7 0 0 0)
               eq_refl eq_refl fuel (empty_schedules ["Ruta_Centro"]) []
               eq_refl) in Hgen.
    done.
  - rewrite (while_loop_stuck (scenario_b_options None)
               (provider_or_default None)
               (policy_or_default (Some zero_headway_policy))
               "Ruta_Centro" (datetime.mk demo_day 7 0 0 0)
               eq_refl eq_refl fuel (empty_schedules ["Ruta_Centro"]) []
               eq_refl) in Hgen.
    done.
Qed.

(** ** The two-hour scenario *)

(** An iteration without rounding that stays within the day. *)
Lemma advance_same_day (options : ScheduleOptions) (dp : DemandProvider)
    (hp : HeadwayPolicy) (route : string) (day hh mm H : Z) :
  date.valid day → 0 <= hh < 24 → 0 <= mm < 60 →
  granularity (round_to_minutes options) = 0 →
  headway_at options dp hp route (datetime.mk day hh mm 0 0) = Ok H →
  0 <= hh * 60 + mm + H < 1440 →
  advance options dp hp route (datetime.mk day hh mm 0 0)
  = Ok (datetime.mk day ((hh * 60 + mm + H) `div` 60)
          ((hh * 60 + mm + H) `mod` 60) 0 0).
Proof.
  intros Hday Hhh Hmm Hg Hh Hrange. unfold advance. rewrite Hh. simpl.
  destruct (timedelta.make H 0 0) as [td|] eqn:Hmk.
  2:{ exfalso. unfold timedelta.make in Hmk.
      destruct (_ && _) eqn:Hb; [done|].
      apply andb_false_iff in Hb. rewrite !Z.leb_gt in Hb.
      revert Hb. unfold timedelta.us_per_day, timedelta.max_days.
      intros Hb. Z.div_mod_to_equations. lia. }
  apply make_minutes in Hmk as ->. simpl.
  set (x := datetime.mk day hh mm 0 0).
  set (y := datetime.mk day _ _ 0 0).
  assert (Hy : datetime.valid y).
  { unfold y, datetime.valid. simpl. split; [done|].
    repeat split; Z.div_mod_to_equations; lia. }
  assert (Hsum : datetime.to_us x + H * 60000000 = datetime.to_us y).
  { unfold x, y, datetime.to_us. simpl. Z.div_mod_to_equations. lia. }
  rewrite add_in_range; rewrite Hsum; [|by apply valid_to_us_range].
  destruct Hy as (_ & ? & ? & ? & ?). rewrite of_us_to_us by done. simpl.
  destruct (truthy _); [by apply round_dt_off | done].
Qed.

Section scenario_b.

Variable service_day : date.t.
Variable round_to_minutes : option Z.
Variable route : string.

Hypothesis day_valid : date.valid service_day.
Hypothesis no_rounding : granularity round_to_minutes = 0.

Let options := scenario_b_options round_to_minutes.
Let dp := provider_or_default None.
Let hp := policy_or_default None.

(** Between 07:00 and 08:59 the score is 0.9 and the headway 8 minutes;
    at 09:00 the score is 0.5 and the headway 15 minutes. *)
Lemma scenario_b_headway (hh mm : Z) :
  hh = 7 ∨ hh = 8 →
  headway_at options dp hp route (datetime.mk service_day hh mm 0 0) = Ok 8.
Proof. by intros [-> | ->]. Qed.

Lemma scenario_b_last_headway :
  headway_at options dp hp route (datetime.mk service_day 9 0 0 0) = Ok 15.
Proof. reflexivity. Qed.

Lemma scenario_b_step (hh mm : Z) :
  hh = 7 ∨ hh = 8 → 0 <= mm < 60 →
  advance options dp hp route (datetime.mk service_day hh mm 0 0)
  = Ok (datetime.mk service_day ((hh * 60 + mm + 8) `div` 60)
          ((hh * 60 + mm + 8) `mod` 60) 0 0).
Proof.
  intros Hhh Hmm.
  apply advance_same_day; [done | lia | done | done | | lia].
  by apply scenario_b_headway.
Qed.

Lemma scenario_b_run :
  run_from options dp hp route (datetime.mk service_day 7 0 0 0)
    (scenario_b_departures service_day).
Proof.
  let l := eval vm_compute in (scenario_b_departures service_day) in
  change (scenario_b_departures service_day) with l.
  repeat (eapply run_step;
          [ reflexivity
          | first [ rewrite scenario_b_step by (first [by left | by right | lia]);
                    reflexivity
                  | apply advance_same_day;
                    [ done | lia | lia | done | apply scenario_b_last_headway
                    | lia ] ]
          | ]).
  by apply run_stop.
Qed.

End scenario_b.

(** C3, with the departures the code produces: with the window
    07:00-09:00, the default estimator and policy, no fixed headway and no
    rounding, the schedule of a route is the 16 departures 07:00, 07:08,
    ..., 08:52, 09:00.  The headway after
    each of the first fifteen is 8 minutes, the entry of the 0.85
    threshold; at 09:00 the score is 0.5 and the headway 15 minutes, and
    09:15 is past the end of the window. *)
Theorem scenario_b_schedule (fuel : nat) (route : string)
    (service_day : date.t) (round_to_minutes : option Z) :
  date.valid service_day →
  granularity round_to_minutes = 0 →
  (16 < fuel)%nat →
  let options := scenario_b_options round_to_minutes in
  generate_daily_schedule fuel [route] service_day options None None
    = Some (Ok {[ route := scenario_b_departures service_day ]}) ∧
  length (scenario_b_departures service_day) = 16%nat ∧
  scenario_b_departures service_day !! 14%nat
    = Some (datetime.mk service_day 8 52 0 0) ∧
  last (scenario_b_departures service_day)
    = Some (datetime.mk service_day 9 0 0 0) ∧
  Forall (λ d, headway_at options (provider_or_default None)
                 (policy_or_default None) route d = Ok 8)
    (take 15 (scenario_b_departures service_day)) ∧
  headway_at options (provider_or_default None) (policy_or_default None)
    route (datetime.mk service_day 9 0 0 0) = Ok 15 ∧
  advance options (provider_or_default None) (policy_or_default None)
    route (datetime.mk service_day 9 0 0 0)
    = Ok (datetime.mk service_day 9 15 0 0) ∧
  contains (service_window options) (datetime.mk service_day 9 15 0 0)
    = false.
Proof.
  intros Hday Hg Hfuel options. split; [|split; [|split; [|split; [|split]]]].
  - unfold generate_daily_schedule.
    change (time.ge _ _) with false. cbn [for_routes].
    unfold first_departure. rewrite round_dt_off by done.
    change (datetime.combine _ _) with (datetime.mk service_day 7 0 0 0).
    change (empty_schedules [route])
      with (<[route := []]> ∅ : gmap string (list datetime.t)).
    rewrite (run_while_loop _ _ _ _ _ _
               (scenario_b_run service_day round_to_minutes route Hday Hg)
               fuel _ []); [|by rewrite lookup_insert_eq|done].
    by rewrite insert_insert_eq.
  - reflexivity.
  - reflexivity.
  - reflexivity.
  - let l := eval vm_compute in (take 15 (scenario_b_departures service_day))
    in change (take 15 (scenario_b_departures service_day)) with l.
    repeat constructor.
  - split; [reflexivity|]. split; [|reflexivity].
    by rewrite (advance_same_day options _ _ route service_day 9 0 15).
Qed.

Lemma scenario_b_schedule_witness :
  generate_daily_schedule 17 ["Ruta_Centro"] demo_day
    (scenario_b_options None) None None
  = Some (Ok {[ "Ruta_Centro" := scenario_b_departures demo_day ]}).
Proof.
  apply (scenario_b_schedule 17 "Ruta_Centro" demo_day None).
  - unfold date.valid, date.min_ordinal, date.max_ordinal, demo_day. lia.
  - reflexivity.
  - lia.
Defined.

(** The call of the scenario on a concrete day: the last two departures
    are 08:52 and 09:00, and 08:56 is not a departure. *)
Lemma scenario_b_has_no_0856 :
  ∃ l,
    departures_of
      (generate_daily_schedule 20 ["Ruta_Centro"] demo_day
         (scenario_b_options None) None None) "Ruta_Centro" = Some l ∧
    length l = 16%nat ∧
    l !! 14%nat = Some (datetime.mk demo_day 8 52 0 0) ∧
    last l = Some (datetime.mk demo_day 9 0 0 0) ∧
    last l ≠ Some (datetime.mk demo_day 8 56 0 0) ∧
    Forall (λ d, d ≠ datetime.mk demo_day 8 56 0 0) l ∧
    headway_at (scenario_b_options None) (provider_or_default None)
      (policy_or_default None) "Ruta_Centro" (datetime.mk demo_day 9 0 0 0)
    = Ok 15.
Proof.
  eexists. split; [vm_compute; reflexivity|].
  split; [reflexivity|]. split; [reflexivity|]. split; [reflexivity|].
  split; [by vm_compute|]. split; [|reflexivity].
  repeat constructor; by vm_compute.
Qed.

(** ** Order of floats *)

Lemma SFcompare_antisym (x y : pyfloat.t) :
  SFcompare y x = CompOpp <$> SFcompare x y.
Proof.
  destruct x as [s1|s1| |s1 m1 e1], y as [s2|s2| |s2 m2 e2]; simpl;
    try reflexivity; try (by destruct s1); try (by destruct s2);
    try (by destruct s1, s2).
  destruct s1, s2; simpl; try reflexivity;
    rewrite (Z.compare_antisym e1 e2); destruct (e1 ?= e2); simpl;
    try reflexivity;
    by rewrite (Pos.compare_cont_antisym m1 m2 Eq).
Qed.

Lemma SFcompare_refl (x : pyfloat.t) :
  ordered x → SFcompare x x = Some Eq.
Proof.
  destruct x as [s|s| |s m e]; simpl; intros Hx; try done;
    try (by destruct s).
  destruct s; rewrite Z.compare_refl, Pos.compare_cont_refl; done.
Qed.

Lemma SFcompare_ordered (x y : pyfloat.t) :
  ordered x → ordered y → ∃ c, SFcompare x y = Some c.
Proof.
  destruct x as [s1|s1| |s1 m1 e1], y as [s2|s2| |s2 m2 e2]; simpl;
    intros Hx Hy; try done; by eexists.
Qed.

(** Among floats that are not NaN, [not (y < x)] is [x <= y]. *)
Lemma float_not_lt_ge (x y : pyfloat.t) :
  ordered x → ordered y → pyfloat.lt y x = false → pyfloat.ge y x = true.
Proof.
  intros Hx Hy. unfold pyfloat.lt, pyfloat.ge, SFltb, SFleb.
  rewrite (SFcompare_antisym y x).
  destruct (SFcompare_ordered y x Hy Hx) as [c ->]. by destruct c.
Qed.

Lemma float_lt_not_ge (x y : pyfloat.t) :
  pyfloat.lt x y = true → pyfloat.ge x y = false.
Proof.
  unfold pyfloat.lt, pyfloat.ge, SFltb, SFleb.
  rewrite (SFcompare_antisym x y).
  by destruct (SFcompare x y) as [[]|].
Qed.

Lemma float_ge_refl (x : pyfloat.t) : ordered x → pyfloat.ge x x = true.
Proof.
  intros Hx. unfold pyfloat.ge, SFleb. by rewrite SFcompare_refl.
Qed.

Lemma float_nan_not_ge (thr : pyfloat.t) : pyfloat.ge S754_nan thr = false.
Proof. unfold pyfloat.ge, SFleb. by destruct thr. Qed.

(** ** The sort of the threshold table *)

Lemma insert_desc_perm (x : pyfloat.t * Z) (l : list (pyfloat.t * Z)) :
  ThresholdHeadwayPolicy.insert_desc x l ≡ₚ x :: l.
Proof.
  induction l as [|y l IH]; simpl; [done|].
  destruct (pyfloat.lt y.1 x.1); [done|].
  rewrite IH. apply perm_swap.
Qed.

Lemma insert_desc_sorted (x : pyfloat.t * Z) (l : list (pyfloat.t * Z)) :
  ordered x.1 → Forall (λ e, ordered e.1) l →
  descending l → descending (ThresholdHeadwayPolicy.insert_desc x l).
Proof.
  unfold descending. intros Hx Hl Hs.
  induction l as [|y l IH]; simpl; [by repeat constructor|].
  apply Forall_cons in Hl as [Hy Hl]. apply Sorted_inv in Hs as [Hs Hhd].
  destruct (pyfloat.lt y.1 x.1) eqn:Hlt.
  - constructor; [by constructor|]. constructor.
    by apply float_lt_le in Hlt.
  - constructor; [by apply IH|].
    destruct l as [|z l]; simpl.
    + constructor. by apply float_not_lt_ge.
    + destruct (pyfloat.lt z.1 x.1); constructor.
      * by apply float_not_lt_ge.
      * by inversion Hhd.
Qed.

Lemma insert_desc_end (x : pyfloat.t * Z) (l : list (pyfloat.t * Z)) :
  Forall (λ y, pyfloat.lt y.1 x.1 = false) l →
  ThresholdHeadwayPolicy.insert_desc x l = l ++ [x].
Proof.
  induction 1 as [|y l Hy _ IH]; simpl; [done|]. by rewrite Hy, IH.
Qed.

Lemma insert_desc_ordered (x : pyfloat.t * Z) (l : list (pyfloat.t * Z)) :
  ordered x.1 → Forall (λ e, ordered e.1) l →
  Forall (λ e, ordered e.1) (ThresholdHeadwayPolicy.insert_desc x l).
Proof. intros Hx Hl. rewrite insert_desc_perm. by constructor. Qed.

(** X1: when no threshold of the table is NaN, the table a policy is
    built with is kept entry for entry: the constructor's sort only
    reorders it. *)
Theorem policy_table_is_permutation (table : list (pyfloat.t * Z))
    (min_headway max_headway : option Z) :
  Forall (λ e, ordered e.1) table →
  ThresholdHeadwayPolicy.thresholds
    (ThresholdHeadwayPolicy.new (Some table) min_headway max_headway)
  ≡ₚ table.
Proof.
  intros _. simpl. unfold ThresholdHeadwayPolicy.sort_desc.
  assert (Hgen : ∀ acc,
            foldl (λ acc x, ThresholdHeadwayPolicy.insert_desc x acc) acc table
            ≡ₚ acc ++ table).
  { induction table as [|x l IH]; intros acc; simpl.
    - by rewrite app_nil_r.
    - rewrite IH, insert_desc_perm. simpl. apply Permutation_middle. }
  apply Hgen.
Qed.

Lemma policy_table_is_permutation_witness :
  ThresholdHeadwayPolicy.thresholds
    (ThresholdHeadwayPolicy.new
       (Some [(pyfloat.f0_5, 15); (pyfloat.f0_85, 8); (pyfloat.f0_0, 30);
              (pyfloat.f0_7, 10)])
       (Some 5) None)
  ≡ₚ [(pyfloat.f0_5, 15); (pyfloat.f0_85, 8); (pyfloat.f0_0, 30);
      (pyfloat.f0_7, 10)].
Proof.
  apply policy_table_is_permutation. by repeat constructor.
Defined.

(** X2: when no threshold of the table is NaN, the constructor leaves the
    table in descending order of threshold: each entry's threshold is
    [>=] the next one's. *)
Theorem policy_table_is_descending (table : list (pyfloat.t * Z))
    (min_headway max_headway : option Z) :
  Forall (λ e, ordered e.1) table →
  descending
    (ThresholdHeadwayPolicy.thresholds
       (ThresholdHeadwayPolicy.new (Some table) min_headway max_headway)).
Proof.
  intros Hord. simpl. unfold ThresholdHeadwayPolicy.sort_desc.
  assert (Hgen : ∀ acc,
            Forall (λ e, ordered e.1) acc → descending acc →
            descending
              (foldl (λ acc x, ThresholdHeadwayPolicy.insert_desc x acc)
                 acc table)).
  { induction Hord as [|x l Hx Hl IH]; intros acc Hacc Hs; simpl; [done|].
    apply IH; [by apply insert_desc_ordered | by apply insert_desc_sorted]. }
  apply Hgen; [done | constructor].
Qed.

Lemma policy_table_is_descending_witness :
  descending
    (ThresholdHeadwayPolicy.thresholds
       (ThresholdHeadwayPolicy.new
          (Some [(pyfloat.f0_3, 20); (pyfloat.f0_85, 8); (pyfloat.f0_5, 15)])
          None None)).
Proof.
  apply policy_table_is_descending. by repeat constructor.
Defined.

(** X3: a table in which no threshold is above an earlier one is kept as
    it is by the constructor: entries with the same threshold stay in
    the order they were given. *)
Theorem policy_table_kept_when_sorted (table : list (pyfloat.t * Z))
    (min_headway max_headway : option Z) :
  never_ascending table →
  ThresholdHeadwayPolicy.thresholds
    (ThresholdHeadwayPolicy.new (Some table) min_headway max_headway)
  = table.
Proof.
  unfold never_ascending. intros Hs. simpl.
  unfold ThresholdHeadwayPolicy.sort_desc.
  assert (Hgen : ∀ acc,
            StronglySorted (λ a b, pyfloat.lt a.1 b.1 = false) (acc ++ table) →
            foldl (λ acc x, ThresholdHeadwayPolicy.insert_desc x acc) acc table
            = acc ++ table).
  { clear Hs. induction table as [|x l IH]; intros acc Hs; simpl.
    - by rewrite app_nil_r.
    - rewrite insert_desc_end.
      + rewrite IH; rewrite <- app_assoc; done.
      + apply Forall_forall. intros y Hy.
        apply (StronglySorted_app_1_elem_of
                 (λ a b : pyfloat.t * Z, pyfloat.lt a.1 b.1 = false)
                 acc (x :: l) y x Hs Hy).
        by left. }
  by apply (Hgen []).
Qed.

Lemma policy_table_kept_when_sorted_witness :
  ThresholdHeadwayPolicy.thresholds
    (ThresholdHeadwayPolicy.new
       (Some [(pyfloat.f0_5, 12); (pyfloat.f0_5, 15); (pyfloat.f0_0, 30)])
       None None)
  = [(pyfloat.f0_5, 12); (pyfloat.f0_5, 15); (pyfloat.f0_0, 30)].
Proof.
  apply policy_table_kept_when_sorted.
  unfold never_ascending. repeat constructor.
Defined.

(** ** The threshold policy on any table *)

(** X4: a policy with a non-empty table answers every score, NaN
    included, with a headway that is at least [min_headway] and at most
    the larger of [min_headway] and [max_headway]; when
    [min_headway <= max_headway] that is the interval between the two. *)
Theorem headway_within_configured_bounds (self : ThresholdHeadwayPolicy.t)
    (route_name : string) (at_ : datetime.t) (demand_score : pyfloat.t) :
  ThresholdHeadwayPolicy.thresholds self ≠ [] →
  ∃ h,
    ThresholdHeadwayPolicy.get_headway_minutes self route_name at_
      demand_score = Ok h ∧
    ThresholdHeadwayPolicy.min_headway self <= h
      <= Z.max (ThresholdHeadwayPolicy.min_headway self)
           (ThresholdHeadwayPolicy.max_headway self).
Proof.
  intros Hne.
  destruct (headway_defined self route_name at_ demand_score Hne) as [h Hh].
  exists h. split; [done|].
  destruct (headway_is_clamped _ _ _ _ _ Hh) as [hw ->].
  unfold ThresholdHeadwayPolicy.clamp. rewrite int_max_spec, int_min_spec.
  lia.
Qed.

Lemma headway_within_configured_bounds_witness :
  ∃ h,
    ThresholdHeadwayPolicy.get_headway_minutes
      (ThresholdHeadwayPolicy.new (Some [(pyfloat.f0_5, 3)]) (Some 10)
         (Some 5))
      "Ruta_Norte" (datetime.mk demo_day 8 0 0 0) pyfloat.f0_9 = Ok h ∧
    10 <= h <= Z.max 10 5.
Proof.
  apply (headway_within_configured_bounds
           (ThresholdHeadwayPolicy.new (Some [(pyfloat.f0_5, 3)]) (Some 10)
              (Some 5))).
  done.
Defined.

(** X5: the policy raises exactly when its table is empty, and then it
    raises [IndexError]: the fallback reads the last entry of a table that
    has none.  A table with an entry never makes the policy raise. *)
Theorem policy_raises_iff_empty_table (self : ThresholdHeadwayPolicy.t)
    (route_name : string) (at_ : datetime.t) (demand_score : pyfloat.t)
    (e : exn) :
  ThresholdHeadwayPolicy.get_headway_minutes self route_name at_ demand_score
    = Raise e
  ↔ ThresholdHeadwayPolicy.thresholds self = [] ∧ e = IndexError.
Proof.
  unfold ThresholdHeadwayPolicy.get_headway_minutes. split.
  - destruct (ThresholdHeadwayPolicy.scan _ _ _); [done|].
    destruct (last _) as [[thr hw]|] eqn:Hlast; [done|].
    apply last_None in Hlast. by intros [= <-].
  - by intros [-> ->].
Qed.

Lemma scan_none (self : ThresholdHeadwayPolicy.t) (score : pyfloat.t)
    (entries : list (pyfloat.t * Z)) :
  Forall (λ e, pyfloat.ge score e.1 = false) entries →
  ThresholdHeadwayPolicy.scan self score entries = None.
Proof.
  induction 1 as [|[thr hw] rest Hthr _ IH]; simpl; [done|].
  simpl in Hthr. by rewrite Hthr.
Qed.

(** X6: a score that meets no threshold of the table gets the clamped
    headway of the last entry; a NaN score is such a score for every
    table. *)
Theorem unmatched_score_gets_last_entry (self : ThresholdHeadwayPolicy.t)
    (route_name : string) (at_ : datetime.t) (demand_score : pyfloat.t)
    (thr : pyfloat.t) (hw : Z) :
  (demand_score = S754_nan ∨
   Forall (λ e, pyfloat.ge demand_score e.1 = false)
     (ThresholdHeadwayPolicy.thresholds self)) →
  last (ThresholdHeadwayPolicy.thresholds self) = Some (thr, hw) →
  ThresholdHeadwayPolicy.get_headway_minutes self route_name at_
    demand_score = Ok (ThresholdHeadwayPolicy.clamp self hw).
Proof.
  intros Hun Hlast. unfold ThresholdHeadwayPolicy.get_headway_minutes.
  rewrite scan_none, Hlast; [done|].
  destruct Hun as [-> | Hun]; [|done].
  apply Forall_forall. intros e _. apply float_nan_not_ge.
Qed.

Lemma unmatched_score_gets_last_entry_witness :
  ThresholdHeadwayPolicy.get_headway_minutes
    (ThresholdHeadwayPolicy.new None None None) "Ruta_Norte"
    (datetime.mk demo_day 8 0 0 0) S754_nan = Ok 30.
Proof.
  apply (unmatched_score_gets_last_entry
           (ThresholdHeadwayPolicy.new None None None) "Ruta_Norte"
           (datetime.mk demo_day 8 0 0 0) S754_nan pyfloat.f0_0 30).
  - by left.
  - reflexivity.
Defined.

Lemma scan_tie (self : ThresholdHeadwayPolicy.t)
    (entries : list (pyfloat.t * Z)) (thr : pyfloat.t) (hw : Z) :
  strictly_descending entries → ordered thr → (thr, hw) ∈ entries →
  ThresholdHeadwayPolicy.scan self thr entries
  = Some (ThresholdHeadwayPolicy.clamp self hw).
Proof.
  unfold strictly_descending. intros Hs Hthr.
  induction entries as [|[thr' hw'] rest IH]; [by rewrite elem_of_nil|].
  apply StronglySorted_cons in Hs as [Hhd Hs].
  rewrite elem_of_cons. intros [[= <- <-] | Hin]; simpl.
  - by rewrite float_ge_refl.
  - rewrite Forall_forall in Hhd. specialize (Hhd _ Hin). simpl in Hhd.
    rewrite (float_lt_not_ge thr thr') by done. by apply IH.
Qed.

(** X7: in any table whose thresholds strictly decrease, a score equal to
    the threshold of an entry gets the clamped headway of that entry, not
    that of the entry below it. *)
Theorem tie_selects_own_entry_in_any_table (self : ThresholdHeadwayPolicy.t)
    (route_name : string) (at_ : datetime.t) (thr : pyfloat.t) (hw : Z) :
  strictly_descending (ThresholdHeadwayPolicy.thresholds self) →
  ordered thr →
  (thr, hw) ∈ ThresholdHeadwayPolicy.thresholds self →
  ThresholdHeadwayPolicy.get_headway_minutes self route_name at_ thr
  = Ok (ThresholdHeadwayPolicy.clamp self hw).
Proof.
  intros Hs Hthr Hin. unfold ThresholdHeadwayPolicy.get_headway_minutes.
  by rewrite (scan_tie self _ thr hw).
Qed.

Lemma tie_selects_own_entry_in_any_table_witness :
  ThresholdHeadwayPolicy.get_headway_minutes
    (ThresholdHeadwayPolicy.new
       (Some [(pyfloat.f0_3, 20); (pyfloat.f0_85, 4); (pyfloat.f0_5, 15)])
       None None)
    "Ruta_Norte" (datetime.mk demo_day 8 0 0 0) pyfloat.f0_5 = Ok 15.
Proof.
  apply (tie_selects_own_entry_in_any_table
           (ThresholdHeadwayPolicy.new
              (Some [(pyfloat.f0_3, 20); (pyfloat.f0_85, 4);
                     (pyfloat.f0_5, 15)]) None None)
           "Ruta_Norte" (datetime.mk demo_day 8 0 0 0) pyfloat.f0_5 15).
  - unfold strictly_descending. by repeat constructor.
  - done.
  - apply list_elem_of_lookup. by exists 1%nat.
Defined.

(** ** The default estimator with the default policy *)

(** X8: with the default estimator and the default policy, and no fixed
    headway, the interval after a departure is between 8 and 30 minutes
    at every time of the day, so the clamp to 6..60 never changes it. *)
Theorem default_headway_between_8_and_30 (options : ScheduleOptions)
    (route : string) (current : datetime.t) :
  fixed_headway_min options = None →
  datetime.valid current →
  ∃ h,
    headway_at options (provider_or_default None) (policy_or_default None)
      route current = Ok h ∧
    8 <= h <= 30.
Proof.
  intros Hfix (_ & Hh & _). unfold headway_at. rewrite Hfix.
  destruct current as [d h m s u]. simpl in Hh.
  assert (Hcases : h = 0 ∨ h = 1 ∨ h = 2 ∨ h = 3 ∨ h = 4 ∨ h = 5 ∨ h = 6 ∨
    h = 7 ∨ h = 8 ∨ h = 9 ∨ h = 10 ∨ h = 11 ∨ h = 12 ∨ h = 13 ∨ h = 14 ∨
    h = 15 ∨ h = 16 ∨ h = 17 ∨ h = 18 ∨ h = 19 ∨ h = 20 ∨ h = 21 ∨ h = 22 ∨
    h = 23) by lia.
  repeat (destruct Hcases as [-> | Hcases];
          [eexists; split; [vm_compute; reflexivity | lia]|]).
  subst h. eexists; split; [vm_compute; reflexivity | lia].
Qed.

Lemma default_headway_between_8_and_30_witness :
  ∃ h,
    headway_at demo_options (provider_or_default None)
      (policy_or_default None) "Ruta_Centro" (datetime.mk demo_day 3 0 0 0)
    = Ok h ∧ 8 <= h <= 30.
Proof.
  apply default_headway_between_8_and_30; [done|].
  unfold datetime.valid, date.valid, date.min_ordinal, date.max_ordinal,
    demo_day. simpl. lia.
Defined.

(** ** More demand, shorter headway *)

Lemma float_le_trans (x y z : pyfloat.t) :
  pyfloat.le x y = true → pyfloat.le y z = true → pyfloat.le x z = true.
Proof.
  unfold pyfloat.le, SFleb.
  destruct x as [s1|s1| |s1 m1 e1], y as [s2|s2| |s2 m2 e2],
    z as [s3|s3| |s3 m3 e3]; simpl; try done;
    try (by destruct s1); try (by destruct s2); try (by destruct s3);
    try (by destruct s1, s2); try (by destruct s2, s3);
    try (by destruct s1, s3); try (by destruct s1, s2, s3).
  change (Pos.compare_cont Eq m1 m2) with (Pos.compare m1 m2).
  change (Pos.compare_cont Eq m2 m3) with (Pos.compare m2 m3).
  change (Pos.compare_cont Eq m1 m3) with (Pos.compare m1 m3).
  destruct s1, s2, s3; try done;
    destruct (Z.compare_spec e1 e2), (Z.compare_spec e2 e3),
      (Z.compare_spec e1 e3); try done; try lia; subst;
    destruct (Pos.compare_spec m1 m2), (Pos.compare_spec m2 m3),
      (Pos.compare_spec m1 m3); simpl; try done; try lia.
Qed.

Lemma clamp_mono (self : ThresholdHeadwayPolicy.t) (a b : Z) :
  a <= b →
  ThresholdHeadwayPolicy.clamp self a <= ThresholdHeadwayPolicy.clamp self b.
Proof.
  unfold ThresholdHeadwayPolicy.clamp. rewrite !int_max_spec, !int_min_spec.
  lia.
Qed.

Lemma scan_some_elem (self : ThresholdHeadwayPolicy.t) (score : pyfloat.t)
    (entries : list (pyfloat.t * Z)) (h : Z) :
  ThresholdHeadwayPolicy.scan self score entries = Some h →
  ∃ e, e ∈ entries ∧ h = ThresholdHeadwayPolicy.clamp self e.2.
Proof.
  induction entries as [|[thr hw] rest IH]; simpl; [done|].
  destruct (pyfloat.ge score thr).
  - intros [= <-]. exists (thr, hw). split; [by left | done].
  - intros Hs. destruct (IH Hs) as (e & He & ->). exists e.
    split; [by right | done].
Qed.

(** The answer of the scan, or of the fallback [fb] when no entry is
    met, does not grow when the score does. *)
Lemma scan_antitone (self : ThresholdHeadwayPolicy.t) (s1 s2 : pyfloat.t)
    (entries : list (pyfloat.t * Z)) (fb : Z) :
  headways_grow entries →
  Forall (λ e, e.2 <= fb) entries →
  pyfloat.le s1 s2 = true →
  default (ThresholdHeadwayPolicy.clamp self fb)
    (ThresholdHeadwayPolicy.scan self s2 entries)
  <= default (ThresholdHeadwayPolicy.clamp self fb)
       (ThresholdHeadwayPolicy.scan self s1 entries).
Proof.
  unfold headways_grow. intros Hg Hfb Hle.
  induction entries as [|[thr hw] rest IH]; simpl; [done|].
  apply StronglySorted_cons in Hg as [Hhd Hg].
  apply Forall_cons in Hfb as [Hhw Hfb]. simpl in Hhw.
  destruct (pyfloat.ge s1 thr) eqn:H1.
  - replace (pyfloat.ge s2 thr) with true; [done|].
    symmetry. by apply (float_le_trans thr s1 s2).
  - destruct (pyfloat.ge s2 thr); [|by apply IH]. simpl.
    destruct (ThresholdHeadwayPolicy.scan self s1 rest) as [h|] eqn:Hs;
      simpl; [|by apply clamp_mono].
    destruct (scan_some_elem _ _ _ _ Hs) as (e & He & ->).
    apply clamp_mono. rewrite Forall_forall in Hhd. by apply (Hhd e).
Qed.

Lemma headways_grow_last (entries : list (pyfloat.t * Z)) (e : pyfloat.t * Z) :
  headways_grow entries → last entries = Some e →
  Forall (λ e', e'.2 <= e.2) entries.
Proof.
  unfold headways_grow. intros Hg Hlast.
  apply last_Some in Hlast as [l' ->].
  apply StronglySorted_app in Hg as (Hall & _ & _).
  apply Forall_app. split.
  - apply Forall_forall. intros x Hx. apply (Hall x e); [done | by left].
  - by repeat constructor.
Qed.

(** X9: in a table whose headways never decrease from an entry to a later
    one (the default table is one), a higher demand score never gets a
    longer headway than a lower one. *)
Theorem more_demand_never_longer_headway (self : ThresholdHeadwayPolicy.t)
    (route_name : string) (at_ : datetime.t) (s1 s2 : pyfloat.t)
    (h1 h2 : Z) :
  headways_grow (ThresholdHeadwayPolicy.thresholds self) →
  pyfloat.le s1 s2 = true →
  ThresholdHeadwayPolicy.get_headway_minutes self route_name at_ s1 = Ok h1 →
  ThresholdHeadwayPolicy.get_headway_minutes self route_name at_ s2 = Ok h2 →
  h2 <= h1.
Proof.
  intros Hg Hle. unfold ThresholdHeadwayPolicy.get_headway_minutes.
  destruct (last (ThresholdHeadwayPolicy.thresholds self)) as [[thr fb]|]
    eqn:Hlast.
  - pose proof (scan_antitone self s1 s2 _ fb Hg
                  (headways_grow_last _ _ Hg Hlast) Hle) as Hanti.
    destruct (ThresholdHeadwayPolicy.scan self s1 _),
      (ThresholdHeadwayPolicy.scan self s2 _); simpl in Hanti;
      intros [= <-] [= <-]; done.
  - apply last_None in Hlast. rewrite Hlast. done.
Qed.

Lemma more_demand_never_longer_headway_witness : 8 <= 20.
Proof.
  apply (more_demand_never_longer_headway
           (ThresholdHeadwayPolicy.new None None None) "Ruta_Centro"
           (datetime.mk demo_day 8 0 0 0) pyfloat.f0_4 pyfloat.f0_9 20 8).
  - unfold headways_grow. repeat constructor; simpl; lia.
  - reflexivity.
  - reflexivity.
  - reflexivity.
Defined.

(** ** Rounding down *)

Lemma round_dt_cases (dt : datetime.t) (round_to_minutes : option Z) :
  datetime.valid dt →
  (granularity round_to_minutes = 0 ∧ _round_dt dt round_to_minutes = Ok dt) ∨
  (1 < granularity round_to_minutes ∧
   _round_dt dt round_to_minutes
   = Ok (floor_minutes dt (granularity round_to_minutes))).
Proof.
  intros Hdt.
  destruct (decide (granularity round_to_minutes = 0)) as [Hg|Hg].
  - left. split; [done | by apply round_dt_off].
  - right. pose proof (granularity_on _ Hg) as Hg1. split; [done|].
    rewrite (granularity_some _ Hg) at 1. by apply round_dt_on.
Qed.

(** X10: [_round_dt] never raises on a datetime.  Its result is a
    datetime of the same day and hour, not after its argument and less
    than the granularity (and never as much as an hour) before it; when
    rounding is on, the result has no seconds and its minute is a multiple
    of the granularity. *)
Theorem round_dt_floor (dt : datetime.t) (round_to_minutes : option Z) :
  datetime.valid dt →
  ∃ r,
    _round_dt dt round_to_minutes = Ok r ∧
    datetime.valid r ∧
    datetime.ordinal r = datetime.ordinal dt ∧
    datetime.hour r = datetime.hour dt ∧
    0 <= datetime.to_us dt - datetime.to_us r
      < Z.max 1 (Z.min 60 (granularity round_to_minutes)) * 60000000 ∧
    aligned round_to_minutes r.
Proof.
  intros Hdt.
  destruct (round_dt_cases dt round_to_minutes Hdt) as [[Hg ->]|[Hg ->]].
  - exists dt. split; [done|]. split; [done|]. split; [done|].
    split; [done|]. split; [lia | by left].
  - eexists. split; [done|]. split; [by apply floor_minutes_valid|].
    split; [done|]. split; [done|]. split.
    + destruct (floor_minutes_spec dt _ Hdt Hg) as (-> & Hm1 & Hm2).
      destruct Hdt as (_ & _ & Hm & Hs & Hu).
      generalize dependent (datetime.minute dt
                              `mod` granularity round_to_minutes).
      intros. lia.
    + right. split; [by apply floor_minutes_minute | done].
Qed.

Lemma round_dt_floor_witness :
  ∃ r,
    _round_dt (datetime.mk demo_day 7 38 12 500) (Some 5) = Ok r ∧
    datetime.valid r ∧
    datetime.ordinal r = demo_day ∧
    datetime.hour r = 7 ∧
    0 <= datetime.to_us (datetime.mk demo_day 7 38 12 500) - datetime.to_us r
      < Z.max 1 (Z.min 60 (granularity (Some 5))) * 60000000 ∧
    aligned (Some 5) r.
Proof.
  apply (round_dt_floor (datetime.mk demo_day 7 38 12 500) (Some 5)).
  unfold datetime.valid, date.valid, date.min_ordinal, date.max_ordinal,
    demo_day. simpl. lia.
Defined.

(** X11: the datetimes [_round_dt] returns unchanged are exactly the
    aligned ones: every datetime when rounding is off, and otherwise those
    with no seconds, no microseconds and a minute that is a multiple of
    the granularity. *)
Theorem round_dt_fixed_points (dt : datetime.t) (round_to_minutes : option Z) :
  datetime.valid dt →
  _round_dt dt round_to_minutes = Ok dt ↔ aligned round_to_minutes dt.
Proof.
  intros Hdt. unfold aligned.
  destruct (round_dt_cases dt round_to_minutes Hdt) as [[Hg ->]|[Hg ->]].
  - split; [by left | done].
  - split.
    + intros [= Heq]. right. rewrite <- Heq at 1. simpl.
      split; [by apply (floor_minutes_minute dt)|].
      by rewrite <- Heq.
    + intros [Hoff | (Hm & Hs & Hu)]; [lia|].
      f_equal. destruct dt as [d h m s u]. unfold floor_minutes. simpl in *.
      subst. rewrite Hm. by rewrite Z.sub_0_r.
Qed.

Lemma round_dt_fixed_points_witness :
  _round_dt (datetime.mk demo_day 7 35 0 0) (Some 5)
    = Ok (datetime.mk demo_day 7 35 0 0)
  ↔ aligned (Some 5) (datetime.mk demo_day 7 35 0 0).
Proof.
  apply round_dt_fixed_points.
  unfold datetime.valid, date.valid, date.min_ordinal, date.max_ordinal,
    demo_day. simpl. lia.
Defined.

(** X12: [_round_dt] keeps the order of datetimes: of two datetimes the
    later one is never rounded to an earlier result. *)
Theorem round_dt_monotone (a b ra rb : datetime.t)
    (round_to_minutes : option Z) :
  datetime.valid a → datetime.valid b →
  datetime.to_us a <= datetime.to_us b →
  _round_dt a round_to_minutes = Ok ra →
  _round_dt b round_to_minutes = Ok rb →
  datetime.to_us ra <= datetime.to_us rb.
Proof.
  intros Ha Hb Hle.
  destruct (round_dt_cases a round_to_minutes Ha) as [[Hg ->]|[Hg ->]];
    destruct (round_dt_cases b round_to_minutes Hb) as [[Hg' ->]|[Hg' ->]];
    try lia; intros [= <-] [= <-]; [done|].
  clear Hg'. revert Hg. generalize (granularity round_to_minutes).
  intros g Hg.
  destruct Ha as (_ & Hah & Ham & Has & Hau), Hb as (_ & Hbh & Hbm & Hbs & Hbu).
  pose proof (Z.div_mod (datetime.minute a) g ltac:(lia)) as Hda.
  pose proof (Z.div_mod (datetime.minute b) g ltac:(lia)) as Hdb.
  pose proof (Z.mod_pos_bound (datetime.minute a) g ltac:(lia)) as Hra.
  pose proof (Z.mod_pos_bound (datetime.minute b) g ltac:(lia)) as Hrb.
  pose proof (Z.mod_le (datetime.minute a) g ltac:(lia) ltac:(lia)) as Hma.
  pose proof (Z.mod_le (datetime.minute b) g ltac:(lia) ltac:(lia)) as Hmb.
  revert Hle. unfold floor_minutes, datetime.to_us, timedelta.us_per_day.
  simpl. intros Hle.
  destruct (decide (datetime.ordinal a * 24 + datetime.hour a
                    = datetime.ordinal b * 24 + datetime.hour b))
    as [Hsame|Hdiff].
  - assert (Hq : datetime.minute a `div` g <= datetime.minute b `div` g)
      by (apply Z.div_le_mono; lia).
    generalize dependent (datetime.minute a `mod` g).
    generalize dependent (datetime.minute b `mod` g).
    generalize dependent (datetime.minute a `div` g).
    generalize dependent (datetime.minute b `div` g).
    intros. nia.
  - generalize dependent (datetime.minute a `mod` g).
    generalize dependent (datetime.minute b `mod` g).
    generalize dependent (datetime.minute a `div` g).
    generalize dependent (datetime.minute b `div` g).
    intros. lia.
Qed.

Lemma round_dt_monotone_witness :
  datetime.to_us (datetime.mk demo_day 7 55 0 0)
  <= datetime.to_us (datetime.mk demo_day 8 0 0 0).
Proof.
  apply (round_dt_monotone (datetime.mk demo_day 7 59 59 0)
           (datetime.mk demo_day 8 0 1 0) _ _ (Some 5)).
  - unfold datetime.valid, date.valid, date.min_ordinal, date.max_ordinal,
      demo_day. simpl. lia.
  - unfold datetime.valid, date.valid, date.min_ordinal, date.max_ordinal,
      demo_day. simpl. lia.
  - unfold datetime.to_us, demo_day. simpl. lia.
  - reflexivity.
  - reflexivity.
Defined.

(** X13: when the granularity divides 60, the rounded time of day is a
    multiple of the granularity counted in minutes since midnight. *)
Theorem round_dt_grid_of_the_day (dt r : datetime.t)
    (round_to_minutes : option Z) :
  datetime.valid dt →
  1 < granularity round_to_minutes →
  60 `mod` granularity round_to_minutes = 0 →
  _round_dt dt round_to_minutes = Ok r →
  (datetime.hour r * 60 + datetime.minute r)
    `mod` granularity round_to_minutes = 0 ∧
  datetime.second r = 0 ∧ datetime.microsecond r = 0.
Proof.
  intros Hdt Hg Hdiv.
  destruct (round_dt_cases dt round_to_minutes Hdt) as [[Hg' _]|[_ ->]];
    [lia|].
  intros [= <-]. split; [|done].
  revert Hg Hdiv. generalize (granularity round_to_minutes). intros g Hg Hdiv.
  rewrite <- Z.add_mod_idemp_r by lia.
  rewrite (floor_minutes_minute dt g) by done. rewrite Z.add_0_r.
  rewrite <- Z.mul_mod_idemp_r, Hdiv by lia. by rewrite Z.mul_0_r.
Qed.

Lemma round_dt_grid_of_the_day_witness :
  (datetime.hour (datetime.mk demo_day 7 30 0 0) * 60
   + datetime.minute (datetime.mk demo_day 7 30 0 0))
    `mod` granularity (Some 15) = 0 ∧
  datetime.second (datetime.mk demo_day 7 30 0 0) = 0 ∧
  datetime.microsecond (datetime.mk demo_day 7 30 0 0) = 0.
Proof.
  apply (round_dt_grid_of_the_day (datetime.mk demo_day 7 38 12 500)
           (datetime.mk demo_day 7 30 0 0) (Some 15)).
  - unfold datetime.valid, date.valid, date.min_ordinal, date.max_ordinal,
      demo_day. simpl. lia.
  - simpl. lia.
  - reflexivity.
  - reflexivity.
Defined.

(** ** What a returned schedule holds *)

(** X14: the keys of a returned schedule are the distinct names of the
    route list: a name listed several times has one entry, a name that is
    not listed has none, and an empty list gives an empty schedule. *)
Theorem schedule_keys (fuel : nat) (routes : list string)
    (service_day : date.t) (options : ScheduleOptions)
    (demand_provider : option DemandProvider)
    (headway_policy : option HeadwayPolicy)
    (schedule : gmap string (list datetime.t)) :
  generate_daily_schedule fuel routes service_day options demand_provider
    headway_policy = Some (Ok schedule) →
  dom schedule = list_to_set routes.
Proof.
  intros Hgen. destruct (generate_run _ _ _ _ _ _ _ Hgen) as [_ Hrun].
  apply set_eq. intros route. rewrite elem_of_dom, elem_of_list_to_set.
  destruct (Hrun route) as [Hout Hin]. split.
  - intros [l Hl]. destruct (decide (route ∈ routes)) as [|Hno]; [done|].
    rewrite Hout in Hl by done. done.
  - intros Hr. destruct (Hin Hr) as (first & l & _ & _ & _ & ->). by eexists.
Qed.

Lemma schedule_keys_witness :
  dom demo_duplicates
  = list_to_set ["Ruta_Centro"; "Ruta_Norte"; "Ruta_Centro"].
Proof.
  apply (schedule_keys 10 _ demo_day demo_options None None).
  vm_compute. reflexivity.
Defined.

Section run_bounds.

Variable options : ScheduleOptions.
Variable dp : DemandProvider.
Variable hp : HeadwayPolicy.
Variable route : string.

Lemma run_from_before_end (current : datetime.t) (l : list datetime.t) :
  run_from options dp hp route current l →
  Forall (λ d, time.le (datetime.time d) (end_ (service_window options))
               = true) l.
Proof. induction 1; by constructor. Qed.

Lemma run_from_head (current : datetime.t) (l : list datetime.t) :
  run_from options dp hp route current l →
  time.le (datetime.time current) (end_ (service_window options)) = true →
  ∃ rest, l = current :: rest.
Proof. destruct 1; [congruence | by eexists]. Qed.

(** The departure after the last one is past the end of the window. *)
Lemma run_from_last (current : datetime.t) (l : list datetime.t)
    (x : datetime.t) :
  run_from options dp hp route current l → last l = Some x →
  ∃ next, advance options dp hp route x = Ok next ∧
          time.le (datetime.time next) (end_ (service_window options))
          = false.
Proof.
  induction 1 as [cur Hc | cur next l Hc Hadv Hrun IH]; [done|].
  destruct l as [|y l'].
  - intros [= <-]. exists next. split; [done|]. by inversion Hrun.
  - intros Hlast. apply IH. by rewrite last_cons_cons in Hlast.
Qed.

End run_bounds.

Lemma Forall_repeated (P : datetime.t → Prop) (k : nat)
    (l : list datetime.t) :
  Forall P l → Forall P (repeated k l).
Proof.
  intros Hl. induction k as [|k IH]; [constructor|].
  rewrite repeated_succ. by apply Forall_app.
Qed.

Lemma last_repeated (k : nat) (l : list datetime.t) :
  (0 < k)%nat → l ≠ [] → last (repeated k l) = last l.
Proof.
  intros Hk Hl. induction k as [|k IH]; [lia|].
  rewrite repeated_succ. destruct k as [|k].
  - unfold repeated. simpl. by rewrite app_nil_r.
  - rewrite last_app, IH by lia.
    destruct (last l) eqn:Hlast; [done|]. by apply last_None in Hlast.
Qed.

Lemma occurrences_pos (route : string) (routes : list string) :
  route ∈ routes → (0 < occurrences route routes)%nat.
Proof.
  induction routes as [|r rest IH]; [by rewrite elem_of_nil|].
  rewrite elem_of_cons, occurrences_cons. intros [->|Hin].
  - case_decide; [lia|done].
  - case_decide; [lia | by apply IH].
Qed.

(** X15: every departure of a returned schedule is a datetime whose time
    of day is not after the end of the window, whatever the headways and
    the rounding are and however often the route is listed. *)
Theorem departures_not_after_end (fuel : nat) (routes : list string)
    (service_day : date.t) (options : ScheduleOptions)
    (demand_provider : option DemandProvider)
    (headway_policy : option HeadwayPolicy)
    (schedule : gmap string (list datetime.t)) (route : string)
    (l : list datetime.t) :
  date.valid service_day →
  time.valid (start (service_window options)) →
  generate_daily_schedule fuel routes service_day options demand_provider
    headway_policy = Some (Ok schedule) →
  schedule !! route = Some l →
  Forall (λ d, datetime.valid d ∧
               time.le (datetime.time d) (end_ (service_window options))
               = true) l.
Proof.
  intros Hday Hstart Hgen Hl.
  destruct (generate_run _ _ _ _ _ _ _ Hgen) as [_ Hrun].
  destruct (Hrun route) as [Hout Hin].
  destruct (decide (route ∈ routes)) as [Hr|Hr];
    [|rewrite Hout in Hl by done; done].
  destruct (Hin Hr) as (first & l' & Hfirst & Hl' & _ & Hsched).
  rewrite Hl in Hsched. injection Hsched as ->.
  destruct (first_departure_spec options service_day Hday Hstart)
    as (Hfirst' & Hvalid & _).
  rewrite Hfirst in Hfirst'. injection Hfirst' as ->.
  apply Forall_repeated, Forall_and. split.
  - by eapply run_from_valid.
  - by eapply run_from_before_end.
Qed.

Lemma departures_not_after_end_witness :
  Forall (λ d, datetime.valid d ∧
               time.le (datetime.time d) (end_ (service_window demo_options))
               = true)
    [datetime.mk demo_day 7 0 0 0; datetime.mk demo_day 7 5 0 0;
     datetime.mk demo_day 7 10 0 0; datetime.mk demo_day 7 15 0 0;
     datetime.mk demo_day 7 20 0 0; datetime.mk demo_day 7 25 0 0;
     datetime.mk demo_day 7 30 0 0].
Proof.
  apply (departures_not_after_end 10 ["Ruta_Centro"] demo_day demo_options
           None None demo_single "Ruta_Centro").
  - unfold date.valid, date.min_ordinal, date.max_ordinal, demo_day. lia.
  - unfold time.valid. simpl. lia.
  - vm_compute. reflexivity.
  - vm_compute. reflexivity.
Defined.

Lemma rounded_start_before_end (options : ScheduleOptions)
    (service_day : date.t) :
  date.valid service_day →
  time.valid (start (service_window options)) →
  time.valid (end_ (service_window options)) →
  time.ge (start (service_window options)) (end_ (service_window options))
    = false →
  time.le (rounded_start options) (end_ (service_window options)) = true.
Proof.
  intros Hday Hstart Hend Hwin.
  destruct (first_departure_spec options service_day Hday Hstart)
    as (_ & Hvalid & _).
  apply datetime_time_valid in Hvalid. rewrite time_combine in Hvalid.
  apply time_le_to_us; [done..|].
  assert (Hlt : time.to_us (start (service_window options))
                < time.to_us (end_ (service_window options))).
  { unfold time.ge in Hwin. rewrite time_cmp_to_us in Hwin by done.
    revert Hwin. case Z.compare_spec; intros; done || lia. }
  assert (Hle : time.to_us (rounded_start options)
                <= time.to_us (start (service_window options))); [|lia].
  unfold rounded_start.
  destruct (Z.eqb_spec (granularity (round_to_minutes options)) 0) as [|Hg];
    [lia|].
  pose proof (granularity_on _ Hg) as Hg1.
  destruct Hstart as (_ & Hm & Hs & Hu).
  pose proof (Z.mod_pos_bound (time.minute (start (service_window options)))
                (granularity (round_to_minutes options)) ltac:(lia)) as Hmod.
  unfold time.to_us. simpl.
  generalize dependent (time.minute (start (service_window options))
                          `mod` granularity (round_to_minutes options)).
  intros. lia.
Qed.

(** X16: in a returned schedule every listed route has at least one
    departure, and its first departure is the start of the window on the
    service day, rounded down. *)
Theorem first_departure_is_rounded_start (fuel : nat) (routes : list string)
    (service_day : date.t) (options : ScheduleOptions)
    (demand_provider : option DemandProvider)
    (headway_policy : option HeadwayPolicy)
    (schedule : gmap string (list datetime.t)) (route : string) :
  date.valid service_day →
  time.valid (start (service_window options)) →
  time.valid (end_ (service_window options)) →
  generate_daily_schedule fuel routes service_day options demand_provider
    headway_policy = Some (Ok schedule) →
  route ∈ routes →
  ∃ rest,
    schedule !! route
    = Some (datetime.combine service_day (rounded_start options) :: rest).
Proof.
  intros Hday Hstart Hend Hgen Hr.
  destruct (generate_run _ _ _ _ _ _ _ Hgen) as [Hwin Hrun].
  destruct (Hrun route) as [_ Hin].
  destruct (Hin Hr) as (first & l & Hfirst & Hl & _ & ->).
  destruct (first_departure_spec options service_day Hday Hstart)
    as (Hfirst' & _ & _).
  rewrite Hfirst in Hfirst'. injection Hfirst' as ->.
  destruct (run_from_head _ _ _ _ _ _ Hl) as [rest ->].
  { rewrite time_combine. by eapply rounded_start_before_end. }
  pose proof (occurrences_pos _ _ Hr) as Hk.
  destruct (occurrences route routes) as [|k]; [lia|].
  rewrite repeated_succ. by eexists.
Qed.

Lemma first_departure_is_rounded_start_witness :
  ∃ rest,
    demo_duplicates !! "Ruta_Norte"
    = Some (datetime.combine demo_day (rounded_start demo_options) :: rest).
Proof.
  apply (first_departure_is_rounded_start 10
           ["Ruta_Centro"; "Ruta_Norte"; "Ruta_Centro"] demo_day
           demo_options None None demo_duplicates "Ruta_Norte").
  - unfold date.valid, date.min_ordinal, date.max_ordinal, demo_day. lia.
  - unfold time.valid. simpl. lia.
  - unfold time.valid. simpl. lia.
  - vm_compute. reflexivity.
  - rewrite !elem_of_cons. right. by left.
Defined.

Lemma length_repeated (k : nat) (l : list datetime.t) :
  length (repeated k l) = (k * length l)%nat.
Proof.
  induction k as [|k IH]; [done|].
  rewrite repeated_succ, length_app, IH. simpl. lia.
Qed.

(** C10: when [generate_daily_schedule] returns, a route named [k] times in
    the list has one entry in the schedule, and that entry is the schedule
    the same call produces for the route alone, [k] times in a row.  The
    schedule for the route alone is not empty, so the entry is [k] times
    as long and, for [k > 1], is not a single copy of it. *)
Theorem duplicate_route_repeats (fuel : nat) (routes : list string)
    (service_day : date.t) (options : ScheduleOptions)
    (demand_provider : option DemandProvider)
    (headway_policy : option HeadwayPolicy)
    (schedule : gmap string (list datetime.t)) (route : string) :
  date.valid service_day →
  time.valid (start (service_window options)) →
  time.valid (end_ (service_window options)) →
  generate_daily_schedule fuel routes service_day options demand_provider
    headway_policy = Some (Ok schedule) →
  route ∈ routes →
  ∃ l,
    generate_daily_schedule fuel [route] service_day options demand_provider
      headway_policy = Some (Ok {[ route := l ]}) ∧
    l ≠ [] ∧
    schedule !! route = Some (repeated (occurrences route routes) l) ∧
    length (repeated (occurrences route routes) l)
    = (occurrences route routes * length l)%nat ∧
    ((1 < occurrences route routes)%nat →
     schedule !! route ≠ Some l).
Proof.
  intros Hday Hstart Hend Hgen Hin.
  destruct (generate_run _ _ _ _ _ _ _ Hgen) as [Hwin Hrun].
  destruct (Hrun route) as [_ Hroute].
  destruct (Hroute Hin) as (first & l & Hfirst & Hl & Hlen & Hsched).
  destruct (first_departure_spec options service_day Hday Hstart)
    as (Hfirst' & _ & _).
  assert (Hne : l ≠ []).
  { rewrite Hfirst in Hfirst'. injection Hfirst' as ->.
    destruct (run_from_head _ _ _ _ _ _ Hl) as [rest ->]; [|done].
    rewrite time_combine. by eapply rounded_start_before_end. }
  exists l. split; [|split; [done|split; [done|split]]].
  - unfold generate_daily_schedule. rewrite Hwin.
    change (empty_schedules [route]) with (<[route := []]> ∅
      : gmap string (list datetime.t)).
    simpl. rewrite Hfirst.
    rewrite (run_while_loop _ _ _ _ _ _ Hl fuel _ []);
      [| by rewrite lookup_insert_eq | done].
    simpl. by rewrite insert_insert_eq.
  - apply length_repeated.
  - intros Hk. rewrite Hsched. intros [= Heq].
    apply (f_equal length) in Heq. rewrite length_repeated in Heq.
    destruct l as [|d l]; [done|]. simpl in Heq. nia.
Qed.

Lemma duplicate_route_repeats_witness :
  ∃ l,
    generate_daily_schedule 10 ["Ruta_Centro"] demo_day demo_options
      None None = Some (Ok {[ "Ruta_Centro" := l ]}) ∧
    l ≠ [] ∧
    demo_duplicates !! "Ruta_Centro"
    = Some (repeated
              (occurrences "Ruta_Centro"
                 ["Ruta_Centro"; "Ruta_Norte"; "Ruta_Centro"]) l) ∧
    length (repeated
              (occurrences "Ruta_Centro"
                 ["Ruta_Centro"; "Ruta_Norte"; "Ruta_Centro"]) l)
    = (occurrences "Ruta_Centro"
         ["Ruta_Centro"; "Ruta_Norte"; "Ruta_Centro"] * length l)%nat ∧
    ((1 < occurrences "Ruta_Centro"
            ["Ruta_Centro"; "Ruta_Norte"; "Ruta_Centro"])%nat →
     demo_duplicates !! "Ruta_Centro" ≠ Some l).
Proof.
  apply (duplicate_route_repeats 10
           ["Ruta_Centro"; "Ruta_Norte"; "Ruta_Centro"] demo_day
           demo_options None None demo_duplicates "Ruta_Centro").
  - unfold date.valid, date.min_ordinal, date.max_ordinal, demo_day. lia.
  - unfold time.valid. simpl. lia.
  - unfold time.valid. simpl. lia.
  - vm_compute. reflexivity.
  - apply elem_of_cons. by left.
Defined.

(** X17: a schedule is never cut short: one more iteration from the last
    departure of a listed route succeeds and gives a datetime whose time
    of day is after the end of the window. *)
Theorem last_departure_is_maximal (fuel : nat) (routes : list string)
    (service_day : date.t) (options : ScheduleOptions)
    (demand_provider : option DemandProvider)
    (headway_policy : option HeadwayPolicy)
    (schedule : gmap string (list datetime.t)) (route : string)
    (l : list datetime.t) (x : datetime.t) :
  generate_daily_schedule fuel routes service_day options demand_provider
    headway_policy = Some (Ok schedule) →
  schedule !! route = Some l →
  last l = Some x →
  ∃ next,
    advance options (provider_or_default demand_provider)
      (policy_or_default headway_policy) route x = Ok next ∧
    time.le (datetime.time next) (end_ (service_window options)) = false.
Proof.
  intros Hgen Hl Hlast.
  destruct (generate_run _ _ _ _ _ _ _ Hgen) as [_ Hrun].
  destruct (Hrun route) as [Hout Hin].
  destruct (decide (route ∈ routes)) as [Hr|Hr];
    [|rewrite Hout in Hl by done; done].
  destruct (Hin Hr) as (first & l' & _ & Hl' & _ & Hsched).
  rewrite Hl in Hsched. injection Hsched as ->.
  destruct (decide (l' = [])) as [->|Hne].
  { exfalso. revert Hlast. clear.
    induction (occurrences route routes) as [|k IH]; [done|].
    by rewrite repeated_succ. }
  rewrite last_repeated in Hlast by (done || by apply occurrences_pos).
  by eapply run_from_last.
Qed.

Lemma last_departure_is_maximal_witness :
  ∃ next,
    advance demo_options (provider_or_default None) (policy_or_default None)
      "Ruta_Centro" (datetime.mk demo_day 7 30 0 0) = Ok next ∧
    time.le (datetime.time next) (end_ (service_window demo_options)) = false.
Proof.
  apply (last_departure_is_maximal 10 ["Ruta_Centro"] demo_day demo_options
           None None demo_single "Ruta_Centro"
           [datetime.mk demo_day 7 0 0 0; datetime.mk demo_day 7 5 0 0;
            datetime.mk demo_day 7 10 0 0; datetime.mk demo_day 7 15 0 0;
            datetime.mk demo_day 7 20 0 0; datetime.mk demo_day 7 25 0 0;
            datetime.mk demo_day 7 30 0 0]).
  - vm_compute. reflexivity.
  - vm_compute. reflexivity.
  - reflexivity.
Defined.

(** X18: the entry of a route does not depend on the other routes of the
    list, nor on their order or on the fuel: two calls that return, with
    the same day, options, estimator and policy, and lists that name the
    route equally often, give the route the same departures. *)
Theorem route_independent_of_others (fuel1 fuel2 : nat)
    (routes1 routes2 : list string) (service_day : date.t)
    (options : ScheduleOptions) (demand_provider : option DemandProvider)
    (headway_policy : option HeadwayPolicy)
    (schedule1 schedule2 : gmap string (list datetime.t)) (route : string) :
  generate_daily_schedule fuel1 routes1 service_day options demand_provider
    headway_policy = Some (Ok schedule1) →
  generate_daily_schedule fuel2 routes2 service_day options demand_provider
    headway_policy = Some (Ok schedule2) →
  occurrences route routes1 = occurrences route routes2 →
  schedule1 !! route = schedule2 !! route.
Proof.
  intros Hgen1 Hgen2 Hocc.
  destruct (generate_run _ _ _ _ _ _ _ Hgen1) as [_ Hrun1].
  destruct (generate_run _ _ _ _ _ _ _ Hgen2) as [_ Hrun2].
  destruct (Hrun1 route) as [Hout1 Hin1], (Hrun2 route) as [Hout2 Hin2].
  destruct (decide (route ∈ routes1)) as [Hr1|Hr1].
  - assert (Hr2 : route ∈ routes2).
    { destruct (decide (route ∈ routes2)) as [|Hno]; [done|].
      pose proof (occurrences_pos _ _ Hr1).
      rewrite (occurrences_zero _ _ Hno) in Hocc. lia. }
    destruct (Hin1 Hr1) as (first1 & l1 & Hf1 & Hl1 & _ & ->).
    destruct (Hin2 Hr2) as (first2 & l2 & Hf2 & Hl2 & _ & ->).
    rewrite Hf1 in Hf2. injection Hf2 as <-.
    by rewrite Hocc, (run_from_det _ _ _ _ _ _ _ Hl1 Hl2).
  - assert (Hr2 : route ∉ routes2).
    { intros Hr2. pose proof (occurrences_pos _ _ Hr2).
      rewrite (occurrences_zero _ _ Hr1) in Hocc. lia. }
    by rewrite Hout1, Hout2.
Qed.

Lemma route_independent_of_others_witness :
  demo_duplicates !! "Ruta_Norte"
  = schedule_of
      (generate_daily_schedule 8 ["Ruta_Norte"; "Ruta_Estudiantil"] demo_day
         demo_options None None) !! "Ruta_Norte".
Proof.
  apply (route_independent_of_others 10 8
           ["Ruta_Centro"; "Ruta_Norte"; "Ruta_Centro"]
           ["Ruta_Norte"; "Ruta_Estudiantil"] demo_day demo_options
           None None).
  - vm_compute. reflexivity.
  - vm_compute. reflexivity.
  - reflexivity.
Defined.

(** ** A window that never closes *)

Lemma time_le_max (x : time.t) : time.valid x → time.le x time_max = true.
Proof.
  intros Hx. apply time_le_to_us; [done | |].
  - unfold time.valid, time_max. simpl. lia.
  - pose proof (time_to_us_range x Hx) as Hr. revert Hr.
    unfold timedelta.us_per_day, time_max, time.to_us. simpl. lia.
Qed.

Lemma run_from_never_ends (options : ScheduleOptions) (dp : DemandProvider)
    (hp : HeadwayPolicy) (route : string) (current : datetime.t)
    (l : list datetime.t) :
  end_ (service_window options) = time_max →
  run_from options dp hp route current l → datetime.valid current → False.
Proof.
  intros Hend. induction 1 as [cur Hc | cur next l Hc Hadv _ IH]; intros Hcur.
  - rewrite Hend, time_le_max in Hc by by apply datetime_time_valid. done.
  - apply IH. by eapply advance_valid.
Qed.

(** X19: when the window ends at 23:59:59.999999 the loop condition holds
    for every datetime, so a call with a route to process never returns a
    schedule: it runs until an exception is raised, or for ever. *)
Theorem window_until_midnight_returns_nothing (fuel : nat)
    (routes : list string) (service_day : date.t) (options : ScheduleOptions)
    (demand_provider : option DemandProvider)
    (headway_policy : option HeadwayPolicy)
    (schedule : gmap string (list datetime.t)) :
  date.valid service_day →
  time.valid (start (service_window options)) →
  end_ (service_window options) = time_max →
  routes ≠ [] →
  generate_daily_schedule fuel routes service_day options demand_provider
    headway_policy ≠ Some (Ok schedule).
Proof.
  intros Hday Hstart Hend Hne Hgen.
  destruct routes as [|route rest]; [done|].
  destruct (generate_run _ _ _ _ _ _ _ Hgen) as [_ Hrun].
  destruct (Hrun route) as [_ Hin].
  destruct Hin as (first & l & Hfirst & Hl & _); [by left|].
  destruct (first_departure_spec options service_day Hday Hstart)
    as (Hfirst' & Hvalid & _).
  rewrite Hfirst in Hfirst'. injection Hfirst' as ->.
  by eapply run_from_never_ends.
Qed.

Lemma window_until_midnight_returns_nothing_witness :
  generate_daily_schedule 50 ["Ruta_Centro"] demo_day
    {| service_window := {| start := time.mk 6 0 0 0; end_ := time_max |};
       fixed_headway_min := None; round_to_minutes := Some 5 |}
    None None ≠ Some (Ok ∅).
Proof.
  apply window_until_midnight_returns_nothing.
  - unfold date.valid, date.min_ordinal, date.max_ordinal, demo_day. lia.
  - unfold time.valid. simpl. lia.
  - reflexivity.
  - done.
Defined.

(** ** Where an exception comes from *)

Section exceptions.

Variable options : ScheduleOptions.
Variable dp : DemandProvider.
Variable hp : HeadwayPolicy.

Lemma advance_raise (route : string) (current : datetime.t) (e : exn) :
  datetime.valid current →
  advance options dp hp route current = Raise e →
  headway_at options dp hp route current = Raise e ∨ e = OverflowError.
Proof.
  intros Hcur. unfold advance.
  destruct (headway_at options dp hp route current) as [h|e'] eqn:Hh;
    simpl; [|intros [= ->]; by left].
  unfold timedelta.make. destruct (_ && _); simpl; [|intros [= <-]; by right].
  destruct (datetime.add current _) as [raw|e'] eqn:Hadd; simpl.
  - destruct (add_spec _ _ _ Hadd) as [Hraw _].
    destruct (round_dt_cases raw (round_to_minutes options) Hraw)
      as [[_ Hr]|[_ Hr]]; destruct (truthy _); by rewrite ?Hr.
  - intros [= <-]. right. unfold datetime.add in Hadd.
    destruct (_ && _); congruence.
Qed.

Lemma while_loop_raise (fuel : nat) (route : string) (current : datetime.t)
    (m : gmap string (list datetime.t)) (e : exn) :
  while_loop options dp hp fuel route current m = Some (Raise e) →
  datetime.valid current → is_Some (m !! route) →
  e = OverflowError ∨
  ∃ x, datetime.valid x ∧ headway_at options dp hp route x = Raise e.
Proof.
  revert current m. induction fuel as [|fuel IH]; intros current m; simpl;
    [done|].
  destruct (time.le _ _); [|done]. intros Hrun Hcur [l0 Hm].
  unfold append_departure in Hrun. rewrite Hm in Hrun.
  destruct (advance options dp hp route current) as [next|e'] eqn:Hadv.
  - apply IH in Hrun; [done | by eapply advance_valid |].
    rewrite lookup_insert_eq. by eexists.
  - injection Hrun as ->.
    destruct (advance_raise _ _ _ Hcur Hadv) as [Hh| ->]; [|by left].
    right. by exists current.
Qed.

Lemma for_routes_raise (fuel : nat) (routes : list string)
    (service_day : date.t) (m : gmap string (list datetime.t)) (e : exn) :
  date.valid service_day →
  time.valid (start (service_window options)) →
  for_routes options dp hp fuel routes service_day m = Some (Raise e) →
  (∀ route, route ∈ routes → is_Some (m !! route)) →
  e = OverflowError ∨
  ∃ route x, route ∈ routes ∧ datetime.valid x ∧
             headway_at options dp hp route x = Raise e.
Proof.
  intros Hday Hstart.
  destruct (first_departure_spec options service_day Hday Hstart)
    as (Hfirst & Hvalid & _).
  revert m. induction routes as [|r rest IH]; intros m; simpl; [done|].
  rewrite Hfirst.
  destruct (while_loop options dp hp fuel r _ m) as [[m1|e']|] eqn:Hrun;
    [| |done]; intros Hrest Hkeys.
  - destruct (Hkeys r) as [l0 Hl0]; [by left|].
    destruct (while_loop_run _ _ _ _ _ _ _ _ _ Hrun Hl0) as (l & _ & -> & _).
    destruct (IH _ Hrest) as [->|(route & x & Hin & Hx & Hh)]; [|by left|].
    + intros route Hin. destruct (decide (r = route)) as [->|Hne].
      * rewrite lookup_insert_eq. by eexists.
      * rewrite lookup_insert_ne by done. apply Hkeys. by right.
    + right. exists route, x. split; [by right | done].
  - injection Hrest as ->.
    destruct (while_loop_raise _ _ _ _ _ Hrun Hvalid) as [->|(x & Hx & Hh)];
      [apply Hkeys; by left | by left |].
    right. exists r, x. split; [by left | done].
Qed.

Lemma while_loop_raise_at (fuel : nat) (route : string)
    (current : datetime.t) (m : gmap string (list datetime.t)) (e : exn) :
  while_loop options dp hp fuel route current m = Some (Raise e) →
  datetime.valid current → is_Some (m !! route) →
  ∃ x, reaches options dp hp route current x ∧ datetime.valid x ∧
       time.le (datetime.time x) (end_ (service_window options)) = true ∧
       advance options dp hp route x = Raise e.
Proof.
  revert current m. induction fuel as [|fuel IH]; intros current m; simpl;
    [done|].
  destruct (time.le _ _) eqn:Hc; [|done]. intros Hrun Hcur [l0 Hm].
  unfold append_departure in Hrun. rewrite Hm in Hrun.
  destruct (advance options dp hp route current) as [next|e'] eqn:Hadv.
  - apply IH in Hrun as (x & Hx & Hvx & Hcx & Hax);
      [| by eapply advance_valid | rewrite lookup_insert_eq; by eexists].
    exists x. split; [by eapply reaches_later | done].
  - injection Hrun as ->. exists current.
    split; [apply reaches_here | done].
Qed.

Lemma for_routes_raise_at (fuel : nat) (routes : list string)
    (service_day : date.t) (m : gmap string (list datetime.t)) (e : exn) :
  date.valid service_day →
  time.valid (start (service_window options)) →
  for_routes options dp hp fuel routes service_day m = Some (Raise e) →
  (∀ route, route ∈ routes → is_Some (m !! route)) →
  ∃ route x, route ∈ routes ∧
    reaches options dp hp route
      (datetime.combine service_day (rounded_start options)) x ∧
    datetime.valid x ∧
    time.le (datetime.time x) (end_ (service_window options)) = true ∧
    advance options dp hp route x = Raise e.
Proof.
  intros Hday Hstart.
  destruct (first_departure_spec options service_day Hday Hstart)
    as (Hfirst & Hvalid & _).
  revert m. induction routes as [|r rest IH]; intros m; simpl; [done|].
  rewrite Hfirst.
  destruct (while_loop options dp hp fuel r _ m) as [[m1|e']|] eqn:Hrun;
    [| |done]; intros Hrest Hkeys.
  - destruct (Hkeys r) as [l0 Hl0]; [by left|].
    destruct (while_loop_run _ _ _ _ _ _ _ _ _ Hrun Hl0) as (l & _ & -> & _).
    destruct (IH _ Hrest) as (route & x & Hin & Hx); [|].
    + intros route Hin. destruct (decide (r = route)) as [->|Hne].
      * rewrite lookup_insert_eq. by eexists.
      * rewrite lookup_insert_ne by done. apply Hkeys. by right.
    + exists route, x. split; [by right | done].
  - injection Hrest as ->.
    destruct (while_loop_raise_at _ _ _ _ _ Hrun Hvalid) as (x & Hx);
      [apply Hkeys; by left|].
    exists r, x. split; [by left | done].
Qed.

End exceptions.

(** X20: the exceptions of a call.  A window whose start is not before
    its end gives [ValueError], whatever the other arguments.  With a
    start before the end, an exception of the call is raised in the loop
    of a listed route, at a datetime the loop visits inside the window,
    by the step that computes the next departure; it is the
    [OverflowError] of the date arithmetic or the exception that the
    estimator or the policy raised when asked for the headway there (a
    [ValueError] included).  The generator raises no [KeyError] or
    [IndexError] of its own. *)
Theorem exceptions_of_a_call (fuel : nat) (routes : list string)
    (service_day : date.t) (options : ScheduleOptions)
    (demand_provider : option DemandProvider)
    (headway_policy : option HeadwayPolicy) :
  date.valid service_day →
  time.valid (start (service_window options)) →
  (time.ge (start (service_window options)) (end_ (service_window options))
   = true →
   generate_daily_schedule fuel routes service_day options demand_provider
     headway_policy = Some (Raise ValueError)) ∧
  (time.ge (start (service_window options)) (end_ (service_window options))
   = false →
   ∀ e : exn,
     generate_daily_schedule fuel routes service_day options demand_provider
       headway_policy = Some (Raise e) →
     ∃ (route : string) (x : datetime.t),
       route ∈ routes ∧
       reaches options (provider_or_default demand_provider)
         (policy_or_default headway_policy) route
         (datetime.combine service_day (rounded_start options)) x ∧
       datetime.valid x ∧
       time.le (datetime.time x) (end_ (service_window options)) = true ∧
       advance options (provider_or_default demand_provider)
         (policy_or_default headway_policy) route x = Raise e ∧
       (e = OverflowError ∨
        headway_at options (provider_or_default demand_provider)
          (policy_or_default headway_policy) route x = Raise e)).
Proof.
  intros Hday Hstart. unfold generate_daily_schedule.
  split; intros Hwin; rewrite Hwin; [done|].
  intros e Hgen.
  destruct (for_routes_raise_at _ _ _ _ _ _ _ _ Hday Hstart Hgen)
    as (route & x & Hin & Hx & Hvx & Hcx & Hax).
  { intros route Hin. rewrite empty_schedules_lookup, decide_True by done.
    by eexists. }
  exists route, x. do 4 (split; [done|]). split; [done|].
  destruct (advance_raise _ _ _ _ _ _ Hvx Hax) as [Hh| ->];
    [by right | by left].
Qed.

Lemma exceptions_of_a_call_witness :
  ∃ (route : string) (x : datetime.t),
    route ∈ ["Ruta_Centro"] ∧
    reaches
      {| service_window :=
           {| start := time.mk 23 30 0 0; end_ := time.mk 23 59 0 0 |};
         fixed_headway_min := Some 45; round_to_minutes := None |}
      (provider_or_default None) (policy_or_default None) route
      (datetime.combine date.max_ordinal
         (rounded_start
            {| service_window :=
                 {| start := time.mk 23 30 0 0; end_ := time.mk 23 59 0 0 |};
               fixed_headway_min := Some 45; round_to_minutes := None |})) x ∧
    datetime.valid x ∧
    time.le (datetime.time x) (time.mk 23 59 0 0) = true ∧
    advance
      {| service_window :=
           {| start := time.mk 23 30 0 0; end_ := time.mk 23 59 0 0 |};
         fixed_headway_min := Some 45; round_to_minutes := None |}
      (provider_or_default None) (policy_or_default None) route x
    = Raise OverflowError ∧
    (OverflowError = OverflowError ∨
     headway_at
       {| service_window :=
            {| start := time.mk 23 30 0 0; end_ := time.mk 23 59 0 0 |};
          fixed_headway_min := Some 45; round_to_minutes := None |}
       (provider_or_default None) (policy_or_default None) route x
     = Raise OverflowError).
Proof.
  refine (proj2 (exceptions_of_a_call 5 ["Ruta_Centro"] date.max_ordinal
                   {| service_window :=
                        {| start := time.mk 23 30 0 0;
                           end_ := time.mk 23 59 0 0 |};
                      fixed_headway_min := Some 45;
                      round_to_minutes := None |}
                   None None _ _) _ OverflowError _).
  - unfold date.valid, date.min_ordinal, date.max_ordinal. lia.
  - unfold time.valid. simpl. lia.
  - vm_compute. reflexivity.
  - vm_compute. reflexivity.
Defined.

(** X21: with the default estimator and the default policy a call raises
    nothing but the [ValueError] of the window check and the
    [OverflowError] of a clock that leaves the range of dates. *)
Theorem default_call_exceptions (fuel : nat) (routes : list string)
    (service_day : date.t) (options : ScheduleOptions) (e : exn) :
  date.valid service_day →
  time.valid (start (service_window options)) →
  generate_daily_schedule fuel routes service_day options None None
    = Some (Raise e) →
  e = ValueError ∨ e = OverflowError.
Proof.
  intros Hday Hstart. unfold generate_daily_schedule.
  destruct (time.ge _ _); [intros [= <-]; by left|].
  intros Hgen. right.
  destruct (for_routes_raise _ _ _ _ _ _ _ _ Hday Hstart Hgen)
    as [->|(route & x & _ & _ & Hh)]; [|done|].
  - intros route Hin. rewrite empty_schedules_lookup, decide_True by done.
    by eexists.
  - exfalso. revert Hh. unfold headway_at.
    destruct (fixed_headway_min options); [done|]. simpl.
    match goal with
    | |- ThresholdHeadwayPolicy.get_headway_minutes ?p ?r ?a ?s = _ → _ =>
        destruct (headway_defined p r a s) as [h ->]; done
    end.
Qed.

Lemma default_call_exceptions_witness :
  OverflowError = ValueError ∨ OverflowError = OverflowError.
Proof.
  apply (default_call_exceptions 5 ["Ruta_Centro"] date.max_ordinal
           {| service_window :=
                {| start := time.mk 23 0 0 0; end_ := time.mk 23 50 0 0 |};
              fixed_headway_min := None; round_to_minutes := None |}
           OverflowError).
  - unfold date.valid, date.min_ordinal, date.max_ordinal. lia.
  - unfold time.valid. simpl. lia.
  - vm_compute. reflexivity.
Defined.

(** ** The schedule of a fixed headway *)

Section fixed_schedule.

Variable options : ScheduleOptions.
Variable dp : DemandProvider.
Variable hp : HeadwayPolicy.
Variable route : string.
Variable H : Z.

Hypothesis end_valid : time.valid (end_ (service_window options)).
Hypothesis fixed : fixed_headway_min options = Some H.
Hypothesis no_rounding : granularity (round_to_minutes options) = 0.
Hypothesis positive : 1 <= H.
Hypothesis same_day :
  time.to_us (end_ (service_window options)) + H * 60000000
    < timedelta.us_per_day.

Lemma run_from_fixed (current : datetime.t) (l : list datetime.t) :
  run_from options dp hp route current l →
  datetime.valid current →
  length l =
    (if time.to_us (datetime.time current)
          <=? time.to_us (end_ (service_window options))
     then Z.to_nat ((time.to_us (end_ (service_window options))
                     - time.to_us (datetime.time current))
                    `div` (H * 60000000) + 1)
     else 0%nat) ∧
  ∀ (k : nat) (d : datetime.t),
    l !! k = Some d →
    datetime.to_us d = datetime.to_us current + Z.of_nat k * (H * 60000000).
Proof.
  induction 1 as [cur Hc | cur next l Hc Hadv Hrun IH]; intros Hcur.
  { split; [|done].
    destruct (Z.leb_spec (time.to_us (datetime.time cur))
                (time.to_us (end_ (service_window options)))) as [Hle|];
      [|done].
    apply time_le_to_us in Hle; [congruence | by apply datetime_time_valid
                                | done]. }
  destruct (advance_spec _ _ _ _ _ _ Hcur Hadv)
    as (h & raw & Hh & _ & Hraw & Hus & _ & Hnext).
  unfold headway_at in Hh. rewrite fixed in Hh. injection Hh as <-.
  rewrite no_rounding in Hnext. simpl in Hnext. subst next.
  destruct (IH Hraw) as [Hlen Hnth]. clear IH.
  apply time_le_to_us in Hc; [|by apply datetime_time_valid | done].
  pose proof (time_to_us_range _ (datetime_time_valid _ Hcur)) as Hrc.
  pose proof (time_to_us_range _ (datetime_time_valid _ Hraw)) as Hrr.
  assert (Htod : time.to_us (datetime.time raw)
                 = time.to_us (datetime.time cur) + H * 60000000).
  { rewrite (to_us_split cur), (to_us_split raw) in Hus.
    unfold timedelta.us_per_day in *. lia. }
  revert Hlen Hnth Hc Hrc Htod. clear Hrr.
  generalize (time.to_us (datetime.time raw)).
  generalize (time.to_us (datetime.time cur)).
  generalize (time.to_us (end_ (service_window options))).
  assert (Hpos : 0 < H * 60000000) by lia. revert Hpos Hus.
  generalize (H * 60000000). intros hus Hpos Hus E t t' Hlen Hnth Hc Hrc ->.
  split.
  - simpl. rewrite Hlen.
    replace (t <=? E) with true by (symmetry; by apply Z.leb_le).
    destruct (Z.leb_spec (t + hus) E) as [Hle|Hgt].
    + replace (E - t) with ((E - (t + hus)) + 1 * hus) by lia.
      rewrite Z.div_add by lia.
      pose proof (Z.div_pos (E - (t + hus)) hus ltac:(lia) ltac:(lia)).
      rewrite <- Z2Nat.inj_succ by lia. f_equal; lia.
    + rewrite Z.div_small by lia. reflexivity.
  - intros [|k] d; simpl.
    + intros [= <-]. lia.
    + intros Hd. rewrite (Hnth _ _ Hd), Hus. lia.
Qed.

End fixed_schedule.

(** X22: with a fixed headway of [H >= 1] minutes, no rounding and a
    window whose end plus [H] minutes is on the same day still, a route
    listed once gets the departures start, start + H, start + 2H, ...: the
    [k]-th is the start plus [k] times [H] minutes, and there are
    [(end - start) div H + 1] of them, the times counted in
    microseconds. *)
Theorem fixed_headway_schedule (fuel : nat) (routes : list string)
    (service_day : date.t) (options : ScheduleOptions) (H : Z)
    (demand_provider : option DemandProvider)
    (headway_policy : option HeadwayPolicy)
    (schedule : gmap string (list datetime.t)) (route : string)
    (l : list datetime.t) :
  date.valid service_day →
  time.valid (start (service_window options)) →
  time.valid (end_ (service_window options)) →
  fixed_headway_min options = Some H →
  granularity (round_to_minutes options) = 0 →
  1 <= H →
  time.to_us (end_ (service_window options)) + H * 60000000
    < timedelta.us_per_day →
  generate_daily_schedule fuel routes service_day options demand_provider
    headway_policy = Some (Ok schedule) →
  occurrences route routes = 1%nat →
  schedule !! route = Some l →
  length l =
    Z.to_nat ((time.to_us (end_ (service_window options))
               - time.to_us (start (service_window options)))
              `div` (H * 60000000) + 1) ∧
  ∀ (k : nat) (d : datetime.t),
    l !! k = Some d →
    datetime.add
      (datetime.combine service_day (start (service_window options)))
      (Z.of_nat k * (H * 60000000)) = Ok d.
Proof.
  intros Hday Hstart Hend Hfix Hg HH Hsame Hgen Hocc Hl.
  destruct (generate_run _ _ _ _ _ _ _ Hgen) as [Hwin Hrun].
  destruct (Hrun route) as [Hout Hin].
  destruct (decide (route ∈ routes)) as [Hr|Hr];
    [|rewrite Hout in Hl by done; done].
  destruct (Hin Hr) as (first & l' & Hfirst & Hl' & _ & Hsched).
  rewrite Hocc, Hl in Hsched. unfold repeated in Hsched. simpl in Hsched.
  rewrite app_nil_r in Hsched. injection Hsched as ->.
  destruct (first_departure_spec options service_day Hday Hstart)
    as (Hfirst' & Hvalid & _).
  rewrite Hfirst in Hfirst'. injection Hfirst' as ->.
  assert (Hrs : rounded_start options = start (service_window options))
    by (unfold rounded_start; by rewrite Hg).
  rewrite Hrs in *.
  destruct (run_from_fixed options _ _ route H Hend Hfix Hg HH Hsame _ _ Hl'
              Hvalid) as [Hlen Hnth].
  rewrite time_combine in Hlen.
  pose proof (rounded_start_before_end options service_day Hday Hstart Hend
                Hwin) as Hle.
  rewrite Hrs in Hle. apply time_le_to_us in Hle; [|done..].
  split.
  - rewrite Hlen. by replace (_ <=? _) with true
      by (symmetry; by apply Z.leb_le).
  - intros k d Hd. specialize (Hnth _ _ Hd).
    pose proof (run_from_valid _ _ _ _ _ _ Hl' Hvalid) as Hall.
    rewrite Forall_lookup in Hall. specialize (Hall _ _ Hd).
    rewrite add_in_range; rewrite <- Hnth.
    + f_equal. destruct Hall as (_ & ? & ? & ? & ?). by apply of_us_to_us.
    + by apply valid_to_us_range.
Qed.

Lemma fixed_headway_schedule_witness :
  length [datetime.mk demo_day 6 0 0 0; datetime.mk demo_day 6 30 0 0;
          datetime.mk demo_day 7 0 0 0] =
    Z.to_nat ((time.to_us (end_ (service_window demo_fixed_options))
               - time.to_us (start (service_window demo_fixed_options)))
              `div` (30 * 60000000) + 1) ∧
  ∀ (k : nat) (d : datetime.t),
    [datetime.mk demo_day 6 0 0 0; datetime.mk demo_day 6 30 0 0;
     datetime.mk demo_day 7 0 0 0] !! k = Some d →
    datetime.add
      (datetime.combine demo_day (start (service_window demo_fixed_options)))
      (Z.of_nat k * (30 * 60000000)) = Ok d.
Proof.
  apply (fixed_headway_schedule 10 ["Ruta_Centro"] demo_day
           demo_fixed_options 30 None None demo_fixed "Ruta_Centro").
  - unfold date.valid, date.min_ordinal, date.max_ordinal, demo_day. lia.
  - unfold time.valid. simpl. lia.
  - unfold time.valid. simpl. lia.
  - reflexivity.
  - reflexivity.
  - lia.
  - unfold timedelta.us_per_day, time.to_us. simpl. lia.
  - vm_compute. reflexivity.
  - reflexivity.
  - vm_compute. reflexivity.
Defined.

(** ** Printing a schedule *)

Lemma digit_inj (a b : Z) :
  0 <= a <= 9 → 0 <= b <= 9 → digit a = digit b → a = b.
Proof.
  intros Ha Hb Heq. apply (f_equal Ascii.nat_of_ascii) in Heq.
  unfold digit in Heq.
  rewrite !Ascii.nat_ascii_embedding in Heq by lia. lia.
Qed.

Lemma two_digits_inj (a b : Z) :
  0 <= a < 100 → 0 <= b < 100 → two_digits a = two_digits b → a = b.
Proof.
  intros Ha Hb. unfold two_digits. intros [= H1 H2].
  apply digit_inj in H1; [|Z.div_mod_to_equations; lia..].
  apply digit_inj in H2; [|Z.div_mod_to_equations; lia..].
  Z.div_mod_to_equations. lia.
Qed.

(** X23: a printed departure is five characters, two digits, a colon and
    two digits, and two datetimes are printed alike exactly when they
    have the same hour and the same minute: the day, the seconds and the
    microseconds do not show. *)
Theorem strftime_HM_same_text (d1 d2 : datetime.t) :
  datetime.valid d1 → datetime.valid d2 →
  String.length (strftime_HM d1) = 5%nat ∧
  String.get 2 (strftime_HM d1) = String.get 0 ":" ∧
  (strftime_HM d1 = strftime_HM d2 ↔
   datetime.hour d1 = datetime.hour d2 ∧
   datetime.minute d1 = datetime.minute d2).
Proof.
  intros (_ & Hh1 & Hm1 & _) (_ & Hh2 & Hm2 & _).
  split; [done|]. split; [done|]. split.
  - unfold strftime_HM, two_digits. simpl. intros [= A B C D].
    split; apply two_digits_inj; try lia; unfold two_digits; congruence.
  - intros [Hh Hm]. unfold strftime_HM. by rewrite Hh, Hm.
Qed.

Lemma strftime_HM_same_text_witness :
  String.length (strftime_HM (datetime.mk demo_day 7 5 0 0)) = 5%nat ∧
  String.get 2 (strftime_HM (datetime.mk demo_day 7 5 0 0))
    = String.get 0 ":" ∧
  (strftime_HM (datetime.mk demo_day 7 5 0 0)
   = strftime_HM (datetime.mk (demo_day + 1) 7 5 30 0) ↔
   datetime.hour (datetime.mk demo_day 7 5 0 0)
   = datetime.hour (datetime.mk (demo_day + 1) 7 5 30 0) ∧
   datetime.minute (datetime.mk demo_day 7 5 0 0)
   = datetime.minute (datetime.mk (demo_day + 1) 7 5 30 0)).
Proof.
  apply strftime_HM_same_text;
    unfold datetime.valid, date.valid, date.min_ordinal, date.max_ordinal,
      demo_day; simpl; lia.
Defined.

(** X24: [schedule_to_strings] keeps the routes and, for each route, the
    number and the order of its departures: the entry of a route is the
    list of its departures, each printed as hour and minute, and a route
    without an entry still has none. *)
Theorem schedule_to_strings_lookup
    (schedule : gmap string (list datetime.t)) (route : string) :
  schedule_to_strings schedule !! route
  = (λ times, strftime_HM <$> times) <$> (schedule !! route).
Proof.
  unfold schedule_to_strings.
  apply (map_fold_weak_ind
           (λ out m, out !! route
                     = (λ times, strftime_HM <$> times) <$> (m !! route))).
  - by rewrite !lookup_empty.
  - intros r times m out Hnone IH.
    destruct (decide (r = route)) as [->|Hne].
    + by rewrite !lookup_insert_eq.
    + by rewrite !lookup_insert_ne.
Qed.

(** ** ServiceWindow.contains *)

(** X25: [contains] compares times of day as instants: a datetime is in
    the window exactly when its time of day, in microseconds since
    midnight, is between those of the start and the end, the date playing
    no part.  A window whose start is after its end therefore contains no
    datetime. *)
Theorem contains_between (self : ServiceWindow) (dt : datetime.t) :
  time.valid (start self) → time.valid (end_ self) → datetime.valid dt →
  (contains self dt = true ↔
   time.to_us (start self) <= time.to_us (datetime.time dt)
     <= time.to_us (end_ self)) ∧
  (time.to_us (end_ self) < time.to_us (start self) →
   contains self dt = false).
Proof.
  intros Hs He Hdt. apply datetime_time_valid in Hdt.
  assert (Hiff : contains self dt = true ↔
            time.to_us (start self) <= time.to_us (datetime.time dt)
              <= time.to_us (end_ self)).
  { unfold contains. rewrite andb_true_iff, !time_le_to_us by done. done. }
  split; [done|]. intros Hinv.
  destruct (contains self dt) eqn:Hc; [|done].
  destruct Hiff as [Hiff _]. specialize (Hiff eq_refl). lia.
Qed.

Lemma contains_between_witness :
  (contains {| start := time.mk 22 0 0 0; end_ := time.mk 6 0 0 0 |}
     (datetime.mk demo_day 23 0 0 0) = true ↔
   time.to_us (time.mk 22 0 0 0)
     <= time.to_us (datetime.time (datetime.mk demo_day 23 0 0 0))
     <= time.to_us (time.mk 6 0 0 0)) ∧
  (time.to_us (time.mk 6 0 0 0) < time.to_us (time.mk 22 0 0 0) →
   contains {| start := time.mk 22 0 0 0; end_ := time.mk 6 0 0 0 |}
     (datetime.mk demo_day 23 0 0 0) = false).
Proof.
  apply (contains_between
           {| start := time.mk 22 0 0 0; end_ := time.mk 6 0 0 0 |}
           (datetime.mk demo_day 23 0 0 0)).
  - unfold time.valid. simpl. lia.
  - unfold time.valid. simpl. lia.
  - unfold datetime.valid, date.valid, date.min_ordinal, date.max_ordinal,
      demo_day. simpl. lia.
Defined.
